(** * Duplicate image removal of [notebooks/load_format_images.ipynb]

    A shallow embedding of [remove_duplicate_images]: the scan of the
    category folders [no] and [yes], the fingerprint dictionary
    [hash_keys], the list [dupes] of display strings, and the deletion
    loop that recovers each path with [di.split(': ')[1]].

    Python strings are [string], the dictionary is a [gmap string nat],
    the file system is a [gmap] from path strings to nodes, and the
    exceptions of [os.remove] are values of [Exn]. *)

From Stdlib Require Import Ascii String DecimalString Decimal.
From Stdlib Require Strings.Byte.
From Stdlib Require Floats Uint63.
From Stdlib Require Import ZifyNat.
From stdpp Require Import base tactics option list strings gmap fin_maps.

Local Open Scope stdpp_scope.

(** ** Python strings *)

Module PyStr.

(** [str(i)] for a non-negative [int]. *)
Definition str_of_nat (n : nat) : string :=
  NilEmpty.string_of_uint (Nat.to_uint n).

(** [c in s] for a single character. *)
Fixpoint has_char (c : ascii) (s : string) : bool :=
  match s with
  | EmptyString => false
  | String a r => if Ascii.eqb a c then true else has_char c r
  end.

(** [s.startswith(pre)]. *)
Fixpoint startswith (s pre : string) {struct pre} : bool :=
  match pre with
  | EmptyString => true
  | String a pre' =>
      match s with
      | EmptyString => false
      | String b s' => if Ascii.eqb b a then startswith s' pre' else false
      end
  end.

(** [sep in s]. *)
Fixpoint contains (sep s : string) : bool :=
  if startswith s sep then true
  else match s with
       | EmptyString => false
       | String _ r => contains sep r
       end.

(** Prepend a character to the piece being built. *)
Definition push (c : ascii) (ps : list string) : list string :=
  match ps with
  | [] => [String c EmptyString]
  | p :: ps' => String c p :: ps'
  end.

(** [s.split(sep)] for a non-empty [sep]: the leftmost occurrence of
    [sep] ends the current piece and the search resumes after it.
    [skip] counts the characters of a matched separator that are still
    to be dropped. *)
Fixpoint split_go (sep : string) (skip : nat) (s : string) : list string :=
  match s with
  | EmptyString => [EmptyString]
  | String c r =>
      match skip with
      | S k => split_go sep k r
      | O =>
          if startswith s sep
          then EmptyString :: split_go sep (String.length sep - 1) r
          else push c (split_go sep 0 r)
      end
  end.

Definition split (sep s : string) : list string := split_go sep 0 s.

End PyStr.

(** ** The host: image decoding, hashing, working directory *)

(** What a run takes from outside the file tree.  [Pixels] is the array
    [cv2.imread] returns for a file that decodes; [imdecode] is the codec
    behind [cv2.imread], which yields [None] (no exception) for content
    that is not an image; [md5_hexdigest x] stands for
    [hashlib.md5(np.array(x, dtype=object)).hexdigest()], with [x = None]
    for the array built from a failed read; [cwd_parent] is
    [str(Path().cwd().parent)]. *)
Class Host := {
  Pixels : Type;
  imdecode : list Byte.byte -> option Pixels;
  md5_hexdigest : option Pixels -> string;
  cwd_parent : string
}.

(** ** The file system *)

(** A directory holds the names of its entries in listing order; a
    regular file holds its raw bytes and whether unlinking it is
    permitted. *)
Inductive Node :=
  | Dir (names : list string)
  | File (content : list Byte.byte) (unlinkable : bool).

Abbreviation FS := (gmap string Node).

Inductive OSErrorKind :=
  | FileNotFoundError
  | PermissionError
  | IsADirectoryError.

Inductive Exn :=
  | IndexError
  | OSError (kind : OSErrorKind) (filename : string).

(** The path an exception reports, [e.filename]. *)
Definition exn_filename (e : Exn) : option string :=
  match e with
  | IndexError => None
  | OSError _ p => Some p
  end.

(** [str(Path(d) / name)]. *)
Definition joinpath (d name : string) : string :=
  if decide (d = "/") then "/" +:+ name else d +:+ "/" +:+ name.

(** [Path.is_file]. *)
Definition is_file (fs : FS) (p : string) : bool :=
  match fs !! p with
  | Some (File _ _) => true
  | _ => false
  end.

(** [Path(d).glob("*")]: the entries of [d] in listing order; nothing at
    all when [d] is not a directory (pathlib returns an empty iterator,
    it does not raise). *)
Definition glob_star (fs : FS) (d : string) : list string :=
  match fs !! d with
  | Some (Dir names) => joinpath d <$> names
  | _ => []
  end.

(** [cv2.imread(p)]: [None] when the file is missing or does not decode. *)
Definition imread `{Host} (fs : FS) (p : string) : option Pixels :=
  match fs !! p with
  | Some (File content _) => imdecode content
  | _ => None
  end.

(** Dropping the name of [p] from a directory node at path [d]. *)
Definition drop_name (p d : string) (n : Node) : Node :=
  match n with
  | Dir names => Dir (filter (λ x, joinpath d x ≠ p) names)
  | File _ _ => n
  end.

Definition unlink (p : string) (fs : FS) : FS :=
  map_imap (λ d n, Some (drop_name p d n)) (delete p fs).

(** [os.remove(p)]. *)
Definition os_remove (fs : FS) (p : string) : Exn + FS :=
  match fs !! p with
  | None => inl (OSError FileNotFoundError p)
  | Some (Dir _) => inl (OSError IsADirectoryError p)
  | Some (File _ false) => inl (OSError PermissionError p)
  | Some (File _ true) => inr (unlink p fs)
  end.

(** ** remove_duplicate_images *)

(** The two locals the scan mutates. *)
Record ScanState := {
  hash_keys : gmap string nat;
  dupes : list (nat * string)
}.

Definition enumerate {A} (l : list A) : list (nat * A) := imap pair l.

Definition class_folders : list string := ["no"; "yes"].

Definition image_folder `{Host} : string :=
  joinpath (joinpath (joinpath cwd_parent "data") "brain_tumor_dataset")
           "raw_images".

Definition file_hash `{Host} (fs : FS) (image : string) : string :=
  md5_hexdigest (imread fs image).

(** The f-string stored in [dupes]. *)
Definition display (j : nat) (image : string) : string :=
  PyStr.str_of_nat j +:+ ": " +:+ image.

(** The body of the inner loop for one enumerated entry. *)
Definition scan_image `{Host} (fs : FS) (st : ScanState) (e : nat * string)
  : ScanState :=
  if is_file fs e.2 then
    match hash_keys st !! file_hash fs e.2 with
    | None =>
        {| hash_keys := <[file_hash fs e.2 := e.1]> (hash_keys st);
           dupes := dupes st |}
    | Some j =>
        {| hash_keys := hash_keys st;
           dupes := dupes st ++ [(e.1, display j e.2)] |}
    end
  else st.

Definition scan_folder `{Host} (fs : FS) (st : ScanState) (f : string)
  : ScanState :=
  foldl (scan_image fs) st (enumerate (glob_star fs (joinpath image_folder f))).

(** [dupes = []] and [hash_keys = {}]. *)
Definition scan_init : ScanState := {| hash_keys := ∅; dupes := [] |}.

Definition scan `{Host} (fs : FS) : ScanState :=
  foldl (scan_folder fs) scan_init class_folders.

(** [di.split(': ')[1]]; [None] is the [IndexError] of a missing piece. *)
Definition recover (di : string) : option string :=
  PyStr.split ": " di !! 1%nat.

(** The deletion loop: the file system it leaves and the exception that
    stopped it, if any. *)
Fixpoint remove_dupes (fs : FS) (ds : list (nat * string)) : FS * option Exn :=
  match ds with
  | [] => (fs, None)
  | d :: rest =>
      match recover d.2 with
      | None => (fs, Some IndexError)
      | Some path =>
          match os_remove fs path with
          | inl e => (fs, Some e)
          | inr fs' => remove_dupes fs' rest
          end
      end
  end.

Record Outcome := {
  stdout : list string;
  fs_after : FS;
  raised : option Exn
}.

Definition report (n : nat) : string :=
  "Total number of duplicated images: " +:+ PyStr.str_of_nat n.

Definition remove_duplicate_images `{Host} (fs : FS) : Outcome :=
  let st := scan fs in
  let r := remove_dupes fs (dupes st) in
  {| stdout := [report (length (dupes st))];
     fs_after := r.1;
     raised := r.2 |}.

(** ** Observations used in the statements *)

(** Every enumerated entry of the run, in scan order. *)
Definition visits `{Host} (fs : FS) : list (nat * string) :=
  class_folders ≫= (λ f, enumerate (glob_star fs (joinpath image_folder f))).

(** The regular files the scan fingerprints, in scan order. *)
Definition scanned_files `{Host} (fs : FS) : list string :=
  filter (λ p, is_file fs p = true) ((visits fs).*2).

(** An enumerated entry that is a regular file with fingerprint [h]. *)
Definition hashed `{Host} (fs : FS) (h : string) (e : nat * string) : Prop :=
  is_file fs e.2 = true ∧ file_hash fs e.2 = h.

#[global] Instance hashed_dec `{Host} fs h e : Decision (hashed fs h e).
Proof. unfold hashed. apply _. Defined.

(** Keeping the first file of every fingerprint.  [first_copies h seen l]
    are the files of [l] whose fingerprint [h] is neither in [seen] nor
    borne by an earlier file of [l]; [later_copies h seen l] are the
    others. *)
Fixpoint first_copies (h : string → string) (seen : gset string)
    (l : list string) : list string :=
  match l with
  | [] => []
  | p :: l' =>
      if decide (h p ∈ seen) then first_copies h seen l'
      else p :: first_copies h ({[h p]} ∪ seen) l'
  end.

Fixpoint later_copies (h : string → string) (seen : gset string)
    (l : list string) : list string :=
  match l with
  | [] => []
  | p :: l' =>
      if decide (h p ∈ seen) then p :: later_copies h seen l'
      else later_copies h ({[h p]} ∪ seen) l'
  end.

(** Removing the files [ps] one after the other. *)
Definition unlink_all (ps : list string) (fs : FS) : FS :=
  foldl (λ fs0 p, unlink p fs0) fs ps.

(** No folder lists a name twice. *)
Definition listing_wf `{Host} (fs : FS) : Prop :=
  ∀ f names, f ∈ class_folders →
    fs !! joinpath image_folder f = Some (Dir names) → NoDup names.

(** ** A sample host and sample trees *)

Module Sample.

(** A stand-in codec: after the tag byte [x01] the pixels follow as
    they are, after [x02] they are stored last pixel first; any other
    content is not an image. *)
Definition decode (content : list Byte.byte) : option (list Byte.byte) :=
  match content with
  | Byte.x01 :: px => Some px
  | Byte.x02 :: px => Some (reverse px)
  | _ => None
  end.

(** A stand-in digest, one string per decoded value. *)
Definition digest (x : option (list Byte.byte)) : string :=
  match x with
  | None => "6adf97f8"
  | Some px => "h" +:+ String.string_of_list_byte px
  end.

Definition host : Host :=
  {| Pixels := list Byte.byte;
     imdecode := decode;
     md5_hexdigest := digest;
     cwd_parent := "/w" |}.

Definition raw : string := "/w/data/brain_tumor_dataset/raw_images".

Definition entries (d : string) (l : list (string * Node))
  : list (string * Node) :=
  (d, Dir (l.*1)) :: (prod_map (joinpath d) id <$> l).

(** The tree with the given entries in [no] and [yes]. *)
Definition tree (no yes : list (string * Node)) : FS :=
  list_to_map (entries (joinpath raw "no") no ++
               entries (joinpath raw "yes") yes).

Definition X : list Byte.byte := [Byte.x01; Byte.x61; Byte.x62].
Definition Y : list Byte.byte := [Byte.x01; Byte.x63; Byte.x64].
(** The pixels of [Y], encoded the other way round. *)
Definition Y' : list Byte.byte := [Byte.x02; Byte.x64; Byte.x63].

Definition no (name : string) : string := joinpath (joinpath raw "no") name.
Definition yes (name : string) : string := joinpath (joinpath raw "yes") name.

(** [a] is a unique image; [a: 1.png] repeats the pixels of [b.png]. *)
Definition colon_tree : FS :=
  tree [("a", File X true); ("b.png", File Y true);
        ("a: 1.png", File Y' true)] [].

(** One image in each folder, the same pixels in both. *)
Definition cross_tree : FS :=
  tree [("x.png", File Y true)] [("y.png", File Y' true)].

(** As [cross_tree], with a colon and a space in the second name. *)
Definition cross_colon_tree : FS :=
  tree [("x.png", File Y true)] [("y: 1.png", File Y' true)].

(** The second copy may not be unlinked. *)
Definition locked_tree : FS :=
  tree [("b.png", File Y true); ("c.png", File Y' false)] [].



(** Two different images. *)
Definition distinct_tree : FS :=
  tree [("a.png", File X true)] [("b.png", File Y true)].

End Sample.

(** ** More of Python's [str] and [float] *)

Module PyText.

(** [sep.join(l)]. *)
Fixpoint join (sep : string) (l : list string) : string :=
  match l with
  | [] => EmptyString
  | x :: l' =>
      match l' with
      | [] => x
      | _ :: _ => x +:+ sep +:+ join sep l'
      end
  end.

(** [s.replace(old, new)] for one-character [old] and [new]. *)
Fixpoint replace_char (old new : ascii) (s : string) : string :=
  match s with
  | EmptyString => EmptyString
  | String c r =>
      String (if Ascii.eqb c old then new else c) (replace_char old new r)
  end.

Definition is_lower (c : ascii) : bool :=
  (97 <=? N_of_ascii c)%N && (N_of_ascii c <=? 122)%N.

Definition upper_char (c : ascii) : ascii :=
  if is_lower c then ascii_of_N (N_of_ascii c - 32) else c.

(** [s.upper()] for an ASCII string: the letters [a] to [z] become [A]
    to [Z], every other character stays. *)
Fixpoint upper (s : string) : string :=
  match s with
  | EmptyString => EmptyString
  | String c r => String (upper_char c) (upper r)
  end.

(** [s.isascii()]. *)
Fixpoint is_ascii (s : string) : bool :=
  match s with
  | EmptyString => true
  | String c r => (N_of_ascii c <? 128)%N && is_ascii r
  end.

End PyText.

Module PyNum.
Import PrimFloat.

(** [float(z)] for an [int] [0 <= z < 2^53]. *)
Definition to_float (z : Z) : float := of_uint63 (Uint63.of_Z z).

(** [int(round(x, 0))] for a float [0 <= x < 2^51]: in binary64 the sum
    [x + 2^52] is the integer nearest to it, ties going to the even one,
    which is the rounding of [round]; its mantissa is read back as an
    integer. *)
Definition int_round0 (x : float) : Z :=
  Uint63.to_Z (normfr_mantissa (frshiftexp (x + 0x1p52)%float).1) - 2 ^ 52.

(** [int(round(image_folder_count * 0.2, 0))]. *)
Definition test_split (image_folder_count : Z) : Z :=
  int_round0 (to_float image_folder_count * 0.2)%float.

(** [int(round((image_folder_count - test_split) * 0.1, 0))]. *)
Definition val_split (image_folder_count test_split : Z) : Z :=
  int_round0 (to_float (image_folder_count - test_split) * 0.1)%float.

End PyNum.

(** ** populate_image_folders *)

Definition classes : list string := ["yes"; "no"].

(** [Path().cwd().parent / "data" / "brain_tumor_dataset"], the parent of
    [raw_images] and of [formatted_images]. *)
Definition dataset_folder `{Host} : string :=
  joinpath (joinpath cwd_parent "data") "brain_tumor_dataset".

Definition formatted_folder `{Host} : string :=
  joinpath dataset_folder "formatted_images".

(** The branch taken for the entry enumerated as [n] in a folder of
    [image_folder_count] entries: the name of the folder it is copied
    to. *)
Definition split_folder (image_folder_count n : nat) : string :=
  let test_split := PyNum.test_split (Z.of_nat image_folder_count) in
  let val_split :=
    PyNum.val_split (Z.of_nat image_folder_count) test_split in
  if (Z.of_nat n <=? test_split)%Z then "TEST_IMGS"
  else if (Z.of_nat n <=? Z.of_nat image_folder_count - val_split)%Z
       then "TRAIN_IMGS"
       else "VALIDATION_IMGS".

(** The second argument of [shutil.copy]. *)
Definition copy_target `{Host} (split c : string) : string :=
  joinpath (joinpath formatted_folder split) (PyText.upper c).

(** The calls [shutil.copy(src, dst)] made for the class [c], in order,
    as long as none of them raises. *)
Definition populate_class `{Host} (fs : FS) (c : string)
  : list (string * string) :=
  let class_folder := joinpath image_folder c in
  let image_folder_count := length (glob_star fs class_folder) in
  imap (λ n image_path,
          (image_path, copy_target (split_folder image_folder_count n) c))
       (glob_star fs class_folder).

Definition populate_image_folders `{Host} (fs : FS)
  : list (string * string) :=
  classes ≫= populate_class fs.

(** ** tidy_filenames_folders *)

Definition parent_folders : list string :=
  ["TRAIN_IMGS"; "TEST_IMGS"; "VALIDATION_IMGS"].

Definition child_folders : list string := ["YES"; "NO"].

(** [name.replace(" ", "_").upper()]. *)
Definition altered_filename (name : string) : string :=
  PyText.upper (PyText.replace_char " " "_" name).

(** What [altered_filename] does to one character. *)
Definition altered_char (c : ascii) : ascii :=
  PyText.upper_char (if Ascii.eqb c " " then "_"%char else c).

(** The target computed for [img]: [split_filename[:-1]] joined by "/",
    then "/" and the altered last piece.  ([split] never returns the
    empty list, so the last piece exists.) *)
Definition final_filename (img : string) : string :=
  let split_filename := PyStr.split "/" (img) in
  let new_filename := PyText.join "/" (removelast split_filename) in
  new_filename +:+ "/" +:+ altered_filename (default "" (last split_filename)).

(** The calls [img.rename(final_filename)], in order, as long as none of
    them raises; each folder is listed once, before its first rename. *)
Definition tidy_filenames_folders `{Host} (fs : FS)
  : list (string * string) :=
  pf ← parent_folders;
  cf ← child_folders;
  img ← glob_star fs (joinpath (joinpath formatted_folder pf) cf);
  [(img, final_filename img)].

(** ** create_folder_structure *)

Module Mk.

(** The exceptions of [os.mkdir], and the one of a recursion that does
    not end. *)
Inductive Error :=
  | FileExistsError (filename : string)
  | FileNotFoundError (filename : string)
  | NotADirectoryError (filename : string)
  | RecursionError.

End Mk.

(** [Path.exists]. *)
Definition path_exists (fs : FS) (p : string) : bool :=
  bool_decide (is_Some (fs !! p)).

(** [Path.is_dir]. *)
Definition is_dir (fs : FS) (p : string) : bool :=
  match fs !! p with
  | Some (Dir _) => true
  | _ => false
  end.

(** [str(Path(p).parent)] for an absolute path [p]: the pieces but the
    last, joined again; the root is its own parent. *)
Definition path_parent (p : string) : string :=
  let d := PyText.join "/" (removelast (PyStr.split "/" p)) in
  if decide (d = "") then "/" else d.

(** [str(p).split('/')[-1]], which is also [Path(p).name]. *)
Definition last_piece (p : string) : string :=
  default "" (last (PyStr.split "/" p)).

(** [os.mkdir(p)]: the new directory is empty and its name is added to
    the listing of its parent.  Access rights of directories are not
    modelled. *)
Definition os_mkdir (fs : FS) (p : string) : Mk.Error + FS :=
  match fs !! p with
  | Some _ => inl (Mk.FileExistsError p)
  | None =>
      match fs !! path_parent p with
      | None => inl (Mk.FileNotFoundError p)
      | Some (File _ _) => inl (Mk.NotADirectoryError p)
      | Some (Dir names) =>
          inr (<[p := Dir []]>
                 (<[path_parent p := Dir (names ++ [last_piece p])]> fs))
      end
  end.

(** [Path(p).mkdir(parents=parents, exist_ok=exist_ok)], as pathlib
    writes it: try [os.mkdir]; on [FileNotFoundError] make the parent
    with [parents=True, exist_ok=True] and try again without [parents];
    on another error give up unless [exist_ok] and the path is a
    directory.  The result is the file system left and the exception
    raised, if any.  [fuel] bounds the recursion on the parents. *)
Fixpoint path_mkdir (fuel : nat) (fs : FS) (p : string)
    (parents exist_ok : bool) : FS * option Mk.Error :=
  match os_mkdir fs p with
  | inr fs' => (fs', None)
  | inl (Mk.FileNotFoundError q) =>
      if negb parents || bool_decide (path_parent p = p)
      then (fs, Some (Mk.FileNotFoundError q))
      else
        match fuel with
        | O => (fs, Some Mk.RecursionError)
        | S k =>
            match path_mkdir k fs (path_parent p) true true with
            | (fs1, Some e) => (fs1, Some e)
            | (fs1, None) => path_mkdir k fs1 p false exist_ok
            end
        end
  | inl e =>
      if negb exist_ok || negb (is_dir fs p) then (fs, Some e)
      else (fs, None)
  end.

(** [f.mkdir(parents=True)]. *)
Definition mkdir_parents (fs : FS) (p : string) : FS * option Mk.Error :=
  path_mkdir (String.length p) fs p true false.

Record Created := {
  cf_stdout : list string;
  cf_fs : FS;
  cf_raised : option Mk.Error
}.

Definition sub_folders : list string := ["YES"; "NO"].

(** The body of the inner loop, for the sub-folder [sf] of [f]; nothing
    runs once an exception was raised. *)
Definition create_sub_folder (f : string) (st : Created) (sf : string)
  : Created :=
  match cf_raised st with
  | Some _ => st
  | None =>
      let sub_folder_dir := joinpath f sf in
      if negb (path_exists (cf_fs st) sub_folder_dir) then
        let r := mkdir_parents (cf_fs st) sub_folder_dir in
        match r.2 with
        | Some e =>
            {| cf_stdout := cf_stdout st; cf_fs := r.1; cf_raised := Some e |}
        | None =>
            {| cf_stdout :=
                 cf_stdout st ++
                 ["SubFolder - " +:+ last_piece sf +:+ " created."];
               cf_fs := r.1;
               cf_raised := None |}
        end
      else
        {| cf_stdout :=
             cf_stdout st ++
             ["SubFolder - " +:+ last_piece sf +:+ " already exists."];
           cf_fs := cf_fs st;
           cf_raised := None |}
  end.

(** The body of the outer loop, for the folder [f]. *)
Definition create_folder (st : Created) (f : string) : Created :=
  match cf_raised st with
  | Some _ => st
  | None =>
      if negb (path_exists (cf_fs st) f) then
        let r := mkdir_parents (cf_fs st) f in
        match r.2 with
        | Some e =>
            {| cf_stdout := cf_stdout st; cf_fs := r.1; cf_raised := Some e |}
        | None =>
            foldl (create_sub_folder f)
              {| cf_stdout :=
                   cf_stdout st ++
                   ["Folder - " +:+ last_piece f +:+ " created."];
                 cf_fs := r.1;
                 cf_raised := None |}
              sub_folders
        end
      else
        {| cf_stdout :=
             cf_stdout st ++
             ["Folder - " +:+ last_piece f +:+ " already exists."];
           cf_fs := cf_fs st;
           cf_raised := None |}
  end.

(** [folders = [train_folder, test_folder, validation_folder]]. *)
Definition folders `{Host} : list string :=
  [joinpath formatted_folder "TRAIN_IMGS";
   joinpath formatted_folder "TEST_IMGS";
   joinpath formatted_folder "VALIDATION_IMGS"].

Definition create_folder_structure `{Host} (fs : FS) : Created :=
  foldl create_folder
    {| cf_stdout := []; cf_fs := fs; cf_raised := None |} folders.

(** Every entry but the root lies in a directory. *)
Definition parents_are_dirs (fs : FS) : Prop :=
  ∀ p, is_Some (fs !! p) → path_parent p ≠ p →
       is_dir fs (path_parent p) = true.

(** The paths the run may make for the folder [pf] of [F]: the folder
    and its sub-folders. *)
Definition made_for (F pf q : string) : Prop :=
  q = joinpath F pf ∨
  ∃ sf, sf ∈ sub_folders ∧ q = joinpath (joinpath F pf) sf.

Definition parents_are_dirs_check (fs : FS) : bool :=
  forallb
    (λ pn, bool_decide (path_parent pn.1 = pn.1)
           || is_dir fs (path_parent pn.1))
    (map_to_list fs).

(** What the run prints for a folder named [pf]. *)
Definition folder_lines (existed : bool) (pf : string) : list string :=
  if existed then ["Folder - " +:+ pf +:+ " already exists."]
  else ["Folder - " +:+ pf +:+ " created.";
        "SubFolder - YES created.";
        "SubFolder - NO created."].

(** ** Checked ranges and sample trees for the other functions *)

(** The two splits equal their integer forms at [z]: a fifth rounded to
    the nearest integer, and a tenth of the rest rounded to the nearest
    integer, ties going to the even one. *)
Definition splits_ok (z : Z) : bool :=
  bool_decide
    (PyNum.test_split z = ((z + 2) `div` 5)%Z ∧
     PyNum.val_split z (PyNum.test_split z) =
       (if decide (((z - (z + 2) `div` 5) `mod` 20 = 5)%Z)
        then ((z - (z + 2) `div` 5) `div` 10)%Z
        else ((z - (z + 2) `div` 5 + 5) `div` 10)%Z)).

(** The same two numbers on [nat]. *)
Definition test_count (count : nat) : nat := (count + 2) / 5.

Definition val_count (count : nat) : nat :=
  if decide ((count - test_count count) mod 20 = 5)
  then (count - test_count count) / 10
  else (count - test_count count + 5) / 10.

Fixpoint splits_check (fuel : nat) (z : Z) : bool :=
  match fuel with
  | O => true
  | S k => splits_ok z && splits_check k (z + 1)
  end.

Module Demo.

Definition formatted : string :=
  "/w/data/brain_tumor_dataset/formatted_images".

(** [TRAIN_IMGS/YES] with two files; the other folders are missing. *)
Definition train_yes_tree : FS :=
  list_to_map
    (Sample.entries (joinpath (joinpath formatted "TRAIN_IMGS") "YES")
       [("y 12 b.jpg", File Sample.X true); ("Y_12_B.JPG", File Sample.Y true)]).

(** Seven files in [yes], none in [no]. *)
Definition seven_tree : FS :=
  Sample.tree []
    ((λ n : string, (n, File Sample.X true)) <$>
       ["a"; "b"; "c"; "d"; "e"; "f"; "g"]).

(** The directories above the dataset folder. *)
Definition above : list (string * Node) :=
  [("/", Dir ["w"]); ("/w", Dir ["data"]);
   ("/w/data", Dir ["brain_tumor_dataset"])].

(** The dataset folder with [raw_images] in it and nothing else. *)
Definition raw_only_tree : FS :=
  list_to_map
    (above ++
     [("/w/data/brain_tumor_dataset", Dir ["raw_images"]);
      ("/w/data/brain_tumor_dataset/raw_images", Dir [])]).

(** [formatted_images] holds an empty [TRAIN_IMGS] and nothing else. *)
Definition train_only_tree : FS :=
  list_to_map
    (above ++
     [("/w/data/brain_tumor_dataset", Dir ["raw_images"; "formatted_images"]);
      ("/w/data/brain_tumor_dataset/raw_images", Dir []);
      ("/w/data/brain_tumor_dataset/formatted_images", Dir ["TRAIN_IMGS"]);
      ("/w/data/brain_tumor_dataset/formatted_images/TRAIN_IMGS", Dir [])]).

(** [formatted_images] is a regular file. *)
Definition formatted_file_tree : FS :=
  list_to_map
    (above ++
     [("/w/data/brain_tumor_dataset", Dir ["formatted_images"]);
      ("/w/data/brain_tumor_dataset/formatted_images", File [] true)]).

End Demo.

(** * Properties *)

(** ** Splitting a display string *)

Section split_facts.

Lemma has_char_string_of_uint (d : Decimal.uint) :
  PyStr.has_char ":" (NilEmpty.string_of_uint d) = false.
Proof. induction d; simpl; auto. Qed.

Lemma has_char_str_of_nat (n : nat) :
  PyStr.has_char ":" (PyStr.str_of_nat n) = false.
Proof. apply has_char_string_of_uint. Qed.

Lemma split_go_nonempty sep k s : PyStr.split_go sep k s ≠ [].
Proof.
  revert k. induction s as [|c r IH]; intros k; cbn [PyStr.split_go]; [done|].
  destruct k as [|k]; [|apply IH].
  destruct (PyStr.startswith (String c r) sep); [done|].
  unfold PyStr.push. by destruct (PyStr.split_go sep 0 r).
Qed.

(** Past a prefix without [':'], the first cut falls on the separator
    written by the f-string. *)
Lemma split_after_index d p :
  PyStr.has_char ":" d = false →
  PyStr.split ": " (d +:+ ": " +:+ p) = d :: PyStr.split ": " p.
Proof.
  unfold PyStr.split. induction d as [|c d IH]; intros Hd.
  - reflexivity.
  - simpl in Hd. destruct (Ascii.eqb c ":") eqn:Hc; [done|].
    change (String c d +:+ ": " +:+ p) with (String c (d +:+ ": " +:+ p)).
    cbn [PyStr.split_go PyStr.startswith]. by rewrite Hc, (IH Hd).
Qed.

Lemma split_without_sep p :
  PyStr.contains ": " p = false → PyStr.split ": " p = [p].
Proof.
  unfold PyStr.split. induction p as [|c r IH]; intros Hp; [done|].
  cbn [PyStr.contains] in Hp. cbn [PyStr.split_go].
  destruct (PyStr.startswith (String c r) ": "); [done|].
  by rewrite (IH Hp).
Qed.

(** With the separator inside [p], the first piece stops at its
    leftmost occurrence. *)
Lemma split_with_sep p :
  PyStr.contains ": " p = true →
  ∃ q r, p = q +:+ ": " +:+ r ∧ PyStr.split ": " p = q :: PyStr.split ": " r.
Proof.
  unfold PyStr.split. induction p as [|c r IH]; intros Hp; [done|].
  cbn [PyStr.contains] in Hp. cbn [PyStr.split_go].
  destruct (PyStr.startswith (String c r) ": ") eqn:Hpre.
  - exists "". cbn [PyStr.startswith] in Hpre.
    destruct (Ascii.eqb c ":") eqn:Hc; [|done].
    apply Ascii.eqb_eq in Hc as ->.
    destruct r as [|c' r']; [done|].
    destruct (Ascii.eqb c' " ") eqn:Hc'; [|done].
    apply Ascii.eqb_eq in Hc' as ->.
    exists r'. done.
  - destruct (IH Hp) as (q & r' & -> & Hs).
    exists (String c q), r'. split; [done|]. by rewrite Hs.
Qed.

Lemma length_app_string (a b : string) :
  String.length (a +:+ b) = (String.length a + String.length b)%nat.
Proof. induction a; simpl; auto. Qed.

Lemma recover_display j p :
  recover (display j p) = head (PyStr.split ": " p).
Proof.
  unfold recover, display.
  rewrite split_after_index by apply has_char_str_of_nat.
  simpl. by destruct (PyStr.split ": " p).
Qed.

Lemma recover_without_sep j p :
  PyStr.contains ": " p = false → recover (display j p) = Some p.
Proof. intros Hp. by rewrite recover_display, split_without_sep. Qed.

Lemma recover_with_sep j p :
  PyStr.contains ": " p = true →
  ∃ q r, recover (display j p) = Some q ∧ p = q +:+ ": " +:+ r.
Proof.
  intros Hp. destruct (split_with_sep p Hp) as (q & r & -> & Hs).
  exists q, r. by rewrite recover_display, Hs.
Qed.

Lemma recover_display_is_Some j p : is_Some (recover (display j p)).
Proof.
  rewrite recover_display. unfold PyStr.split.
  pose proof (split_go_nonempty ": " 0 p).
  destruct (PyStr.split_go ": " 0 p); [done|]. by eexists.
Qed.

Lemma proper_prefix_neq (q r : string) : q ≠ q +:+ ": " +:+ r.
Proof.
  intros Heq. apply (f_equal String.length) in Heq.
  rewrite !length_app_string in Heq. simpl in Heq. lia.
Qed.

End split_facts.

Example split_two : PyStr.split ": " "0: /d/no/a.png" = ["0"; "/d/no/a.png"].
Proof. reflexivity. Qed.

Example split_three :
  PyStr.split ": " "12: /d/no/a: 1.png" = ["12"; "/d/no/a"; "1.png"].
Proof. reflexivity. Qed.

Example split_trailing : PyStr.split ": " "a: " = ["a"; ""].
Proof. reflexivity. Qed.

Example split_colons : PyStr.split ": " "a:: b" = ["a:"; "b"].
Proof. reflexivity. Qed.

Example recover_plain : recover (display 3 "/d/no/a.png") = Some "/d/no/a.png".
Proof. reflexivity. Qed.

Example recover_cut : recover (display 3 "/d/no/a: 1.png") = Some "/d/no/a".
Proof. reflexivity. Qed.

(** ** The scan as one fold over the enumerated entries *)

Section scan_facts.
Context `{Host} (fs : FS).

Local Abbreviation hashed := (hashed fs).

Lemma scan_unfold : scan fs = foldl (scan_image fs) scan_init (visits fs).
Proof.
  unfold scan, visits, class_folders, scan_folder. simpl.
  by rewrite app_nil_r, foldl_app.
Qed.

Lemma scan_image_keys st e : hash_keys st ⊆ hash_keys (scan_image fs st e).
Proof.
  unfold scan_image. destruct (is_file fs e.2); [|done].
  destruct (hash_keys st !! file_hash fs e.2) eqn:E; simpl; [done|].
  by apply insert_subseteq.
Qed.

Lemma scan_list_keys l st :
  hash_keys st ⊆ hash_keys (foldl (scan_image fs) st l).
Proof.
  revert st. induction l as [|e l IH]; intros st; simpl; [done|].
  etrans; [apply scan_image_keys | apply IH].
Qed.

Lemma scan_image_dupes st e :
  dupes st `prefix_of` dupes (scan_image fs st e).
Proof.
  unfold scan_image. destruct (is_file fs e.2); [|done].
  destruct (hash_keys st !! file_hash fs e.2); simpl; [|done].
  by apply prefix_app_r.
Qed.

(** The dictionary after scanning [l]: what was there stays, and a new
    fingerprint gets the enumeration index of its first file. *)
Lemma scan_list_lookup l st h :
  hash_keys (foldl (scan_image fs) st l) !! h =
  match hash_keys st !! h with
  | Some v => Some v
  | None => fst <$> head (filter (hashed h) l)
  end.
Proof.
  revert st. induction l as [|e l IH]; intros st; simpl.
  { by destruct (hash_keys st !! h). }
  rewrite IH, filter_cons.
  destruct (decide (hashed h e)) as [[Hf Hh]|Hn]; unfold scan_image.
  - rewrite Hf. subst h.
    destruct (hash_keys st !! file_hash fs e.2) as [j|] eqn:Hj; simpl.
    + by rewrite Hj.
    + by rewrite lookup_insert_eq.
  - destruct (is_file fs e.2) eqn:Hf; [|done].
    destruct (hash_keys st !! file_hash fs e.2) as [j|] eqn:Hj; simpl; [done|].
    rewrite lookup_insert_ne; [done|]. intros Heq. by apply Hn.
Qed.

(** At the end of the scan a fingerprint is mapped to the enumeration
    index of the first scanned file that bears it. *)
Lemma scan_lookup h :
  hash_keys (scan fs) !! h = fst <$> head (filter (hashed h) (visits fs)).
Proof.
  rewrite scan_unfold, scan_list_lookup. simpl. by rewrite lookup_empty.
Qed.

(** Exactly the files whose fingerprint is already in the dictionary
    are appended to [dupes], under the index stored there. *)
Lemma scan_list_marks l st d :
  d ∈ dupes (foldl (scan_image fs) st l) ↔
  d ∈ dupes st ∨
  ∃ l1 e l2 j, l = l1 ++ e :: l2 ∧ is_file fs e.2 = true ∧
    hash_keys (foldl (scan_image fs) st l1) !! file_hash fs e.2 = Some j ∧
    d = (e.1, display j e.2).
Proof.
  revert st. induction l as [|e0 l IH]; intros st; simpl.
  { split; [by left|]. intros [?|(l1 & ? & ? & ? & Hl & _)]; [done|].
    by destruct l1. }
  rewrite IH. split.
  - intros [Hd|(l1 & e & l2 & j & -> & Hf & Hj & ->)].
    + revert Hd. unfold scan_image.
      destruct (is_file fs e0.2) eqn:Hf; [|by left].
      destruct (hash_keys st !! file_hash fs e0.2) as [j|] eqn:Hj; simpl;
        [|by left].
      rewrite elem_of_app, list_elem_of_singleton. intros [?| ->]; [by left|].
      right. by exists [], e0, l, j.
    + right. by exists (e0 :: l1), e, l2, j.
  - intros [Hd|(l1 & e & l2 & j & Hl & Hf & Hj & ->)].
    + left. by eapply elem_of_prefix; [|apply scan_image_dupes].
    + destruct l1 as [|e1 l1]; simplify_eq/=.
      * left. unfold scan_image. rewrite Hf, Hj. simpl.
        rewrite elem_of_app, list_elem_of_singleton. by right.
      * right. by exists l1, e, l2, j.
Qed.

End scan_facts.

(** ** Consequences for a whole run *)

Section run_facts.
Context `{Host} (fs : FS).

Lemma head_filter_is_Some {A} (P : A → Prop) `{!∀ x, Decision (P x)}
    (l : list A) (x : A) :
  x ∈ l → P x → is_Some (head (filter P l)).
Proof.
  intros Hx HP. apply head_is_Some. intros Hnil.
  assert (x ∈ filter P l) as Hin by by apply list_elem_of_filter.
  rewrite Hnil in Hin. by apply elem_of_nil in Hin.
Qed.

(** A file scanned after another file with the same fingerprint is
    appended to [dupes]. *)
Lemma later_copy_marked l1 e1 l2 e2 l3 :
  visits fs = l1 ++ e1 :: l2 ++ e2 :: l3 →
  is_file fs e1.2 = true → is_file fs e2.2 = true →
  file_hash fs e1.2 = file_hash fs e2.2 →
  ∃ k, (e2.1, display k e2.2) ∈ dupes (scan fs).
Proof.
  intros Hv Hf1 Hf2 Hh. rewrite scan_unfold, Hv.
  destruct (head_filter_is_Some (hashed fs (file_hash fs e2.2))
              (l1 ++ e1 :: l2) e1) as [e0 He0].
  { rewrite elem_of_app, elem_of_cons. auto. }
  { by split. }
  exists e0.1. apply scan_list_marks. right.
  exists (l1 ++ e1 :: l2), e2, l3, e0.1. split_and!; [|done| |done].
  - by rewrite <- app_assoc.
  - rewrite scan_list_lookup. simpl. rewrite lookup_empty. by rewrite He0.
Qed.

(** Every entry of [dupes] is the enumeration index of a scanned file
    with the display string built from the dictionary value and the
    file's path. *)
Lemma dupes_entry d :
  d ∈ dupes (scan fs) →
  ∃ e j, e ∈ visits fs ∧ is_file fs e.2 = true ∧
    hash_keys (scan fs) !! file_hash fs e.2 = Some j ∧
    d = (e.1, display j e.2).
Proof.
  rewrite scan_unfold. intros Hd. apply scan_list_marks in Hd.
  destruct Hd as [Hd|(l1 & e & l2 & j & Hl & Hf & Hj & ->)].
  { by apply elem_of_nil in Hd. }
  exists e, j. rewrite Hl. split_and!; [|done| |done].
  - rewrite elem_of_app, elem_of_cons. auto.
  - rewrite foldl_app. by eapply lookup_weaken; [|apply scan_list_keys].
Qed.

Lemma remove_dupes_cons fs0 d rest path :
  recover d.2 = Some path →
  remove_dupes fs0 (d :: rest) =
  match os_remove fs0 path with
  | inl e => (fs0, Some e)
  | inr fs1 => remove_dupes fs1 rest
  end.
Proof. intros Hr. simpl. by rewrite Hr. Qed.

Lemma remove_dupes_app fs0 ds1 ds2 :
  remove_dupes fs0 (ds1 ++ ds2) =
  match remove_dupes fs0 ds1 with
  | (fs1, None) => remove_dupes fs1 ds2
  | r => r
  end.
Proof.
  revert fs0. induction ds1 as [|d ds1 IH]; intros fs0; simpl; [done|].
  destruct (recover d.2) as [path|]; [|done].
  destruct (os_remove fs0 path); [done|]. apply IH.
Qed.

Lemma os_remove_filename fs0 p e :
  os_remove fs0 p = inl e → exn_filename e = Some p.
Proof.
  unfold os_remove. destruct (fs0 !! p) as [[?|? []]|]; naive_solver.
Qed.



End run_facts.

(** ** C10: the path travels inside the display string *)

(** C10. Each entry of [dupes] carries its file's path only inside the
    string "<dictionary value>: <path>", the dictionary value being the
    enumeration index of the first file with that fingerprint, and the
    deletion loop calls
    [os.remove] on the second piece of that string split at ": ".  When
    the path contains no ": " that piece is the path itself; when it
    does, the piece is a proper prefix of the path, so [os.remove] is
    called on a different path. *)
Theorem recovered_path_vs_actual_path `{Host} (fs : FS) (d : nat * string) :
  d ∈ dupes (scan fs) →
  ∃ j p q,
    (d.1, p) ∈ visits fs ∧ is_file fs p = true ∧
    hash_keys (scan fs) !! file_hash fs p = Some j ∧
    (∃ p0, head (filter (hashed fs (file_hash fs p)) (visits fs))
             = Some (j, p0)) ∧
    d.2 = display j p ∧
    recover d.2 = Some q ∧
    (∀ fs0 rest, remove_dupes fs0 (d :: rest) =
       match os_remove fs0 q with
       | inl e => (fs0, Some e)
       | inr fs1 => remove_dupes fs1 rest
       end) ∧
    (PyStr.contains ": " p = false → q = p) ∧
    (PyStr.contains ": " p = true →
       (∃ r, p = q +:+ ": " +:+ r) ∧ q ≠ p ∧
       (String.length q < String.length p)%nat).
Proof.
  intros Hd. destruct (dupes_entry fs d Hd) as ([i p] & j & Hv & Hf & Hj & ->).
  simpl in *. destruct (recover_display_is_Some j p) as [q Hq].
  exists j, p, q. split_and!; try done.
  - rewrite scan_lookup in Hj.
    destruct (head (filter _ (visits fs))) as [[j0 p0]|]; simplify_eq/=.
    by exists p0.
  - intros fs0 rest. by rewrite Hq.
  - intros Hp. rewrite (recover_without_sep j p Hp) in Hq. congruence.
  - intros Hp. destruct (recover_with_sep j p Hp) as (q' & r & Hq' & ->).
    assert (q' = q) as -> by congruence. split_and!.
    + by exists r.
    + apply proper_prefix_neq.
    + rewrite !length_app_string. simpl. lia.
Qed.

Lemma recovered_path_vs_actual_path_witness :
  let fs := Sample.colon_tree in
  let d := (2%nat, display 1 (Sample.no "a: 1.png")) in
  ∃ j p q,
    (d.1, p) ∈ visits (H:=Sample.host) fs ∧ is_file fs p = true ∧
    hash_keys (scan (H:=Sample.host) fs) !! file_hash (H:=Sample.host) fs p
      = Some j ∧
    (∃ p0, head (filter (hashed (H:=Sample.host) fs
                           (file_hash (H:=Sample.host) fs p))
                   (visits (H:=Sample.host) fs))
             = Some (j, p0)) ∧
    d.2 = display j p ∧
    recover d.2 = Some q ∧
    (∀ fs0 rest, remove_dupes fs0 (d :: rest) =
       match os_remove fs0 q with
       | inl e => (fs0, Some e)
       | inr fs1 => remove_dupes fs1 rest
       end) ∧
    (PyStr.contains ": " p = false → q = p) ∧
    (PyStr.contains ": " p = true →
       (∃ r, p = q +:+ ": " +:+ r) ∧ q ≠ p ∧
       (String.length q < String.length p)%nat).
Proof.
  apply (recovered_path_vs_actual_path (H:=Sample.host)).
  vm_compute. constructor.
Defined.

(** ** C7: the fingerprint depends on the decoded pixels only *)

(** C7. [file_hash] is [md5_hexdigest] of what [cv2.imread] decodes, so
    two regular files whose contents decode to the same pixels, whatever
    their names and raw bytes, get the same fingerprint, and the one
    scanned later is appended to [dupes]. *)
Theorem equal_pixels_equal_fingerprint `{Host} (fs : FS)
    l1 i p l2 j q l3 c1 u1 c2 u2 :
  visits fs = l1 ++ (i, p) :: l2 ++ (j, q) :: l3 →
  fs !! p = Some (File c1 u1) →
  fs !! q = Some (File c2 u2) →
  imdecode c1 = imdecode c2 →
  file_hash fs p = md5_hexdigest (imdecode c1) ∧
  file_hash fs q = file_hash fs p ∧
  ∃ k, (j, display k q) ∈ dupes (scan fs).
Proof.
  intros Hv Hp Hq Hdec.
  assert (file_hash fs p = md5_hexdigest (imdecode c1)) as Hhp.
  { unfold file_hash, imread. by rewrite Hp. }
  assert (file_hash fs q = md5_hexdigest (imdecode c1)) as Hhq.
  { unfold file_hash, imread. by rewrite Hq, Hdec. }
  split_and!; [done|congruence|].
  apply (later_copy_marked fs l1 (i, p) l2 (j, q) l3 Hv); simpl.
  - unfold is_file. by rewrite Hp.
  - unfold is_file. by rewrite Hq.
  - congruence.
Qed.

Lemma equal_pixels_equal_fingerprint_witness :
  Sample.Y ≠ Sample.Y' ∧
  file_hash (H:=Sample.host) Sample.cross_tree (Sample.yes "y.png") =
  file_hash (H:=Sample.host) Sample.cross_tree (Sample.no "x.png") ∧
  ∃ k, (0%nat, display k (Sample.yes "y.png")) ∈
       dupes (scan (H:=Sample.host) Sample.cross_tree).
Proof.
  split; [done|].
  apply (equal_pixels_equal_fingerprint (H:=Sample.host) Sample.cross_tree
           [] 0%nat (Sample.no "x.png") [] 0%nat (Sample.yes "y.png") []
           Sample.Y true Sample.Y' true); reflexivity.
Defined.

(** ** C9: a failing deletion reaches the caller *)

(** C9. When the deletion loop reaches an entry whose [os.remove] call
    fails, after the earlier entries were deleted, the run ends with that
    exception: it is raised to the caller, it carries the path handed to
    [os.remove], which is the duplicate's own path when that path has no
    ": " in it, and the files deleted before stay deleted. *)
Theorem delete_failure_is_raised `{Host} (fs : FS)
    ds1 d ds2 fs1 path e :
  dupes (scan fs) = ds1 ++ d :: ds2 →
  remove_dupes fs ds1 = (fs1, None) →
  recover d.2 = Some path →
  os_remove fs1 path = inl e →
  raised (remove_duplicate_images fs) = Some e ∧
  exn_filename e = Some path ∧
  fs_after (remove_duplicate_images fs) = fs1 ∧
  (∀ k p, d.2 = display k p → PyStr.contains ": " p = false → path = p).
Proof.
  intros Hds H1 Hrec Hrm. unfold remove_duplicate_images. simpl.
  rewrite Hds, remove_dupes_app, H1, (remove_dupes_cons _ _ _ path Hrec), Hrm.
  simpl. split_and!; [done|by eapply os_remove_filename|done|].
  intros k p Hd Hp. rewrite Hd, (recover_without_sep k p Hp) in Hrec.
  congruence.
Qed.

Lemma delete_failure_is_raised_witness :
  raised (remove_duplicate_images (H:=Sample.host) Sample.locked_tree) =
    Some (OSError PermissionError (Sample.no "c.png")) ∧
  exn_filename (OSError PermissionError (Sample.no "c.png")) =
    Some (Sample.no "c.png") ∧
  fs_after (remove_duplicate_images (H:=Sample.host) Sample.locked_tree) =
    Sample.locked_tree ∧
  (∀ k p, display 0 (Sample.no "c.png") = display k p →
          PyStr.contains ": " p = false → Sample.no "c.png" = p).
Proof.
  apply (delete_failure_is_raised (H:=Sample.host) Sample.locked_tree
           [] (1%nat, display 0 (Sample.no "c.png")) [] Sample.locked_tree
           (Sample.no "c.png") (OSError PermissionError (Sample.no "c.png")));
    reflexivity.
Defined.

(** ** C2: a file that does not decode *)




(** ** C3: a category folder that does not exist *)

Section missing_folder.
Context `{Host} (fs : FS).




End missing_folder.




(** ** C8: images that all differ *)

Section distinct.
Context `{Host} (fs : FS).

Lemma scanned_files_app l1 e l2 :
  visits fs = l1 ++ e :: l2 → is_file fs e.2 = true →
  scanned_files fs =
    filter (λ p, is_file fs p = true) (l1.*2) ++
    e.2 :: filter (λ p, is_file fs p = true) (l2.*2).
Proof.
  intros Hv Hf. unfold scanned_files.
  rewrite Hv, fmap_app, fmap_cons, filter_app, filter_cons.
  by rewrite decide_True.
Qed.

(** With no fingerprint occurring twice among the scanned files, the
    scan marks nothing. *)
Lemma unique_hashes_no_dupes :
  NoDup (file_hash fs <$> scanned_files fs) → dupes (scan fs) = [].
Proof.
  intros Hnd. destruct (dupes (scan fs)) as [|d ds] eqn:Hds; [done|].
  exfalso. assert (d ∈ dupes (scan fs)) as Hd by (rewrite Hds; by left).
  rewrite scan_unfold in Hd. apply scan_list_marks in Hd.
  destruct Hd as [Hd|(l1 & e & l2 & j & Hl & Hf & Hj & _)].
  { by apply elem_of_nil in Hd. }
  rewrite scan_list_lookup in Hj. simpl in Hj. rewrite lookup_empty in Hj.
  destruct (head (filter (hashed fs (file_hash fs e.2)) l1)) as [e'|] eqn:He';
    [|done].
  apply head_Some_elem_of, list_elem_of_filter in He' as [[Hf' Hh'] Hin].
  rewrite (scanned_files_app l1 e l2 Hl Hf), fmap_app, fmap_cons in Hnd.
  apply NoDup_app in Hnd as (_ & Hdisj & _).
  apply (Hdisj (file_hash fs e.2)); [|by left].
  rewrite <- Hh'. apply list_elem_of_fmap_2, list_elem_of_filter.
  split; [done|]. by apply list_elem_of_fmap_2.
Qed.

End distinct.

(** C8. When the scanned files decode to pairwise different values and
    different decoded values among them never share a fingerprint, the
    run reports 0 duplicates, raises nothing and leaves the file system
    as it was: every image survives. *)
Theorem distinct_images_all_survive `{Host} (fs : FS) :
  NoDup (imread fs <$> scanned_files fs) →
  (∀ p q, p ∈ scanned_files fs → q ∈ scanned_files fs →
          file_hash fs p = file_hash fs q → imread fs p = imread fs q) →
  dupes (scan fs) = [] ∧
  stdout (remove_duplicate_images fs) = [report 0] ∧
  raised (remove_duplicate_images fs) = None ∧
  fs_after (remove_duplicate_images fs) = fs.
Proof.
  intros Hnd Hcoll.
  assert (dupes (scan fs) = []) as Hds.
  { apply unique_hashes_no_dupes.
    change (file_hash fs <$> scanned_files fs)
      with ((md5_hexdigest ∘ imread fs) <$> scanned_files fs).
    rewrite list_fmap_compose. apply NoDup_fmap_2_strong; [|done].
    intros x y (p & -> & Hp)%list_elem_of_fmap (q & -> & Hq)%list_elem_of_fmap.
    by apply Hcoll. }
  unfold remove_duplicate_images. by rewrite Hds.
Qed.

Lemma distinct_images_all_survive_witness :
  dupes (scan (H:=Sample.host) Sample.distinct_tree) = [] ∧
  stdout (remove_duplicate_images (H:=Sample.host) Sample.distinct_tree)
    = [report 0] ∧
  raised (remove_duplicate_images (H:=Sample.host) Sample.distinct_tree)
    = None ∧
  fs_after (remove_duplicate_images (H:=Sample.host) Sample.distinct_tree)
    = Sample.distinct_tree.
Proof.
  apply (distinct_images_all_survive (H:=Sample.host) Sample.distinct_tree).
  - vm_compute. repeat constructor; set_solver.
  - assert (scanned_files (H:=Sample.host) Sample.distinct_tree =
            [Sample.no "a.png"; Sample.yes "b.png"]) as -> by reflexivity.
    intros p q Hp Hq.
    repeat match goal with
           | H : _ ∈ _ :: _ |- _ => apply elem_of_cons in H as [->|H]
           | H : _ ∈ [] |- _ => by apply elem_of_nil in H
           end; vm_compute; congruence.
Defined.

(** ** First and later copies *)

Section copies.
Context (h : string → string).

Lemma filter_ext_in {A} (P Q : A → Prop)
    `{!∀ x, Decision (P x), !∀ x, Decision (Q x)} (l : list A) :
  (∀ x, x ∈ l → P x ↔ Q x) → filter P l = filter Q l.
Proof.
  induction l as [|a l IH]; intros Hext; [done|].
  rewrite !filter_cons, IH by (intros; apply Hext; by right).
  apply decide_ext, Hext. by left.
Qed.

Lemma filter_all {A} (P : A → Prop) `{!∀ x, Decision (P x)} (l : list A) :
  (∀ x, x ∈ l → P x) → filter P l = l.
Proof.
  induction l as [|a l IH]; intros Hall; [done|].
  rewrite filter_cons_True, IH; [done| |]; intros; apply Hall; by constructor.
Qed.

Lemma later_copies_sublist seen l : later_copies h seen l `sublist_of` l.
Proof.
  revert seen. induction l as [|p l IH]; intros seen; simpl; [done|].
  case_decide; [apply sublist_skip|apply sublist_cons]; apply IH.
Qed.

Lemma first_copies_fresh seen l x :
  x ∈ first_copies h seen l → h x ∉ seen.
Proof.
  revert seen. induction l as [|p l IH]; intros seen; simpl.
  { by intros ?%elem_of_nil. }
  case_decide as Hp; [apply IH|].
  intros [->|Hx%IH]%elem_of_cons; [done|]. set_solver.
Qed.

(** The kept files bear pairwise different fingerprints. *)
Lemma first_copies_NoDup seen l : NoDup (h <$> first_copies h seen l).
Proof.
  revert seen. induction l as [|p l IH]; intros seen; simpl.
  { constructor. }
  case_decide as Hp; [apply IH|].
  rewrite fmap_cons. constructor; [|apply IH].
  intros (x & Hx & Hin%first_copies_fresh)%list_elem_of_fmap. set_solver.
Qed.

(** Every fingerprint of [l] that is not in [seen] is borne by a kept
    file. *)
Lemma first_copies_cover seen l x :
  x ∈ l → h x ∉ seen → ∃ y, y ∈ first_copies h seen l ∧ h y = h x.
Proof.
  revert seen. induction l as [|p l IH]; intros seen; simpl.
  { by intros ?%elem_of_nil. }
  intros [->|Hx]%elem_of_cons Hfresh.
  - rewrite decide_False by done. exists p. split; [by left|done].
  - case_decide as Hp; [by apply IH|].
    destruct (decide (h x = h p)) as [Heq|Hne].
    + exists p. split; [by left|done].
    + destruct (IH ({[h p]} ∪ seen) Hx) as (y & Hy & Hhy); [set_solver|].
      exists y. split; [by right|done].
Qed.

(** Without the later copies, the first copies are what is left. *)
Lemma filter_later_copies seen l :
  NoDup l →
  filter (λ p, p ∉ later_copies h seen l) l = first_copies h seen l.
Proof.
  revert seen. induction l as [|p l IH]; intros seen Hnd; simpl; [done|].
  apply NoDup_cons in Hnd as [Hp Hnd]. rewrite filter_cons.
  destruct (decide (h p ∈ seen)) as [Hseen|Hseen].
  - rewrite decide_False by (intros Hn; apply Hn; by left).
    rewrite <- (IH seen Hnd). apply filter_ext_in. intros x Hx.
    rewrite not_elem_of_cons. naive_solver.
  - rewrite decide_True, IH; [done|done|].
    intros Hin. apply Hp.
    by eapply elem_of_sublist; [|apply later_copies_sublist].
Qed.

End copies.

(** ** Unlinking files *)

Section unlink_facts.

Lemma lookup_unlink p (fs : FS) q :
  unlink p fs !! q =
  if decide (q = p) then None else drop_name p q <$> fs !! q.
Proof.
  unfold unlink. rewrite map_lookup_imap. case_decide as Hq.
  - subst q. by rewrite lookup_delete_eq.
  - rewrite lookup_delete_ne by done. by destruct (fs !! q).
Qed.

Lemma lookup_unlink_all_None ps (fs : FS) q :
  fs !! q = None → unlink_all ps fs !! q = None.
Proof.
  unfold unlink_all. revert fs. induction ps as [|p ps IH]; intros fs Hq;
    simpl; [done|].
  apply IH. rewrite lookup_unlink, Hq. by case_decide.
Qed.

Lemma lookup_unlink_all_in ps (fs : FS) q :
  q ∈ ps → unlink_all ps fs !! q = None.
Proof.
  unfold unlink_all. revert fs. induction ps as [|p ps IH]; intros fs;
    simpl.
  { by intros ?%elem_of_nil. }
  destruct (decide (q = p)) as [->|Hne].
  - intros _. apply lookup_unlink_all_None.
    rewrite lookup_unlink. by rewrite decide_True.
  - intros [?|Hq]%elem_of_cons; [done|]. by apply IH.
Qed.

Lemma lookup_unlink_all_file ps (fs : FS) q c u :
  q ∉ ps → fs !! q = Some (File c u) →
  unlink_all ps fs !! q = Some (File c u).
Proof.
  unfold unlink_all. revert fs. induction ps as [|p ps IH]; intros fs;
    simpl; [done|].
  intros [Hne Hq]%not_elem_of_cons Hfs. apply IH; [done|].
  rewrite lookup_unlink, decide_False, Hfs by done. done.
Qed.

Lemma lookup_unlink_all_dir ps (fs : FS) q names :
  q ∉ ps → fs !! q = Some (Dir names) →
  unlink_all ps fs !! q =
    Some (Dir (filter (λ x, joinpath q x ∉ ps) names)).
Proof.
  unfold unlink_all. revert fs names.
  induction ps as [|p ps IH]; intros fs names; simpl.
  { intros _ ->. do 2 f_equal. symmetry. apply filter_all.
    intros x _ ?%elem_of_nil. done. }
  intros [Hne Hq]%not_elem_of_cons Hfs.
  erewrite IH; [|done|]; last first.
  { rewrite lookup_unlink, decide_False, Hfs by done. done. }
  do 2 f_equal. rewrite list_filter_filter. apply list_filter_iff.
  intros x. rewrite not_elem_of_cons. naive_solver.
Qed.

Lemma is_file_unlink_all ps (fs : FS) q :
  is_file (unlink_all ps fs) q = true ↔ is_file fs q = true ∧ q ∉ ps.
Proof.
  unfold is_file. destruct (decide (q ∈ ps)) as [Hin|Hnin].
  - rewrite lookup_unlink_all_in by done. naive_solver.
  - destruct (fs !! q) as [[names|c u]|] eqn:Hq.
    + rewrite (lookup_unlink_all_dir _ _ _ names) by done. naive_solver.
    + rewrite (lookup_unlink_all_file _ _ _ c u) by done. naive_solver.
    + rewrite lookup_unlink_all_None by done. naive_solver.
Qed.

Lemma imread_unlink_all `{Host} ps (fs : FS) q :
  q ∉ ps → imread (unlink_all ps fs) q = imread fs q.
Proof.
  intros Hnin. unfold imread. destruct (fs !! q) as [[names|c u]|] eqn:Hq.
  - by rewrite (lookup_unlink_all_dir _ _ _ names).
  - by rewrite (lookup_unlink_all_file _ _ _ c u).
  - by rewrite lookup_unlink_all_None.
Qed.

Lemma fmap_filter_preimage {A B} (g : A → B) (P : B → Prop) (Q : A → Prop)
    `{!∀ y, Decision (P y), !∀ x, Decision (Q x)} (l : list A) :
  (∀ x, Q x ↔ P (g x)) → g <$> filter Q l = filter P (g <$> l).
Proof.
  intros HQ. induction l as [|a l IH]; [done|].
  rewrite fmap_cons, !filter_cons.
  destruct (decide (Q a)) as [Ha|Ha].
  - rewrite decide_True by by apply HQ. by rewrite fmap_cons, IH.
  - rewrite decide_False; [done|]. by rewrite <- HQ.
Qed.

(** After unlinking regular files, a folder lists what it listed, less
    the unlinked paths. *)
Lemma glob_unlink_all ps (fs : FS) d :
  (∀ p, p ∈ ps → is_file fs p = true) →
  glob_star (unlink_all ps fs) d = filter (λ p, p ∉ ps) (glob_star fs d).
Proof.
  intros Hps. unfold glob_star.
  destruct (fs !! d) as [[names|c u]|] eqn:Hd.
  - assert (d ∉ ps) as Hnin.
    { intros Hin%Hps. unfold is_file in Hin. by rewrite Hd in Hin. }
    rewrite (lookup_unlink_all_dir _ _ _ names) by done.
    by apply fmap_filter_preimage.
  - destruct (decide (d ∈ ps)).
    + by rewrite lookup_unlink_all_in.
    + by rewrite (lookup_unlink_all_file _ _ _ c u).
  - by rewrite lookup_unlink_all_None.
Qed.

(** The deletion loop on display strings that give back the paths [ps]
    of unlinkable files. *)
Lemma remove_dupes_ok ds ps (fs : FS) :
  (λ d : nat * string, recover d.2) <$> ds = Some <$> ps →
  NoDup ps →
  (∀ p, p ∈ ps → ∃ c, fs !! p = Some (File c true)) →
  remove_dupes fs ds = (unlink_all ps fs, None).
Proof.
  revert ps fs. induction ds as [|d ds IH]; intros [|p ps] fs Heq Hnd Hps;
    try done.
  rewrite !fmap_cons in Heq. injection Heq as Hd Htl.
  apply NoDup_cons in Hnd as [Hp Hnd].
  cbn [remove_dupes]. rewrite Hd. unfold os_remove.
  destruct (Hps p) as [c ->]; [by left|].
  change (unlink_all (p :: ps) fs) with (unlink_all ps (unlink p fs)).
  apply IH; [done|done|].
  intros q Hq. destruct (Hps q) as [c' Hc']; [by right|].
  exists c'. rewrite lookup_unlink, decide_False, Hc'; [done|].
  intros ->. done.
Qed.

End unlink_facts.

(** ** Paths of the scanned entries *)

Section path_facts.

Lemma app_string_assoc (a b c : string) : (a +:+ b) +:+ c = a +:+ b +:+ c.
Proof.
  induction a as [|x a IH]; [done|].
  change (String x ((a +:+ b) +:+ c) = String x (a +:+ b +:+ c)).
  by rewrite IH.
Qed.

Lemma joinpath_prefix d :
  ∃ P, P ≠ "" ∧ ∀ x, joinpath d x = P +:+ x.
Proof.
  unfold joinpath. case_decide.
  - exists "/". done.
  - exists (d +:+ "/"). split; [by destruct d|].
    intros x. by rewrite app_string_assoc.
Qed.

Global Instance joinpath_inj d : Inj (=) (=) (joinpath d).
Proof.
  intros x y. destruct (joinpath_prefix d) as (P & _ & HP).
  rewrite !HP. apply (inj (String.app P)).
Qed.

Lemma joinpath_nested d f n :
  f ≠ "" → joinpath (joinpath d f) n = joinpath d f +:+ "/" +:+ n.
Proof.
  intros Hf. unfold joinpath at 1. rewrite decide_False; [done|].
  destruct (joinpath_prefix d) as (P & HP & ->).
  destruct P as [|a P]; [done|]. destruct f as [|b f]; [done|].
  cbn. intros [= _ Heq]. by destruct P.
Qed.

(** No path lies in both folders. *)
Lemma folder_entries_disjoint d n1 n2 :
  joinpath (joinpath d "no") n1 ≠ joinpath (joinpath d "yes") n2.
Proof.
  rewrite !joinpath_nested by done.
  destruct (joinpath_prefix d) as (P & _ & HP). rewrite !HP.
  rewrite !app_string_assoc. intros Heq%(inj (String.app P)).
  cbv [String.append] in Heq. discriminate.
Qed.

Lemma enumerate_paths {A} (l : list A) : (enumerate l).*2 = l.
Proof.
  unfold enumerate. rewrite fmap_imap.
  rewrite (imap_ext _ (const id)) by done.
  by rewrite imap_const, list_fmap_id.
Qed.

Lemma visits_paths `{Host} (fs : FS) :
  (visits fs).*2 =
  glob_star fs (joinpath image_folder "no") ++
  glob_star fs (joinpath image_folder "yes").
Proof.
  unfold visits, class_folders. simpl.
  by rewrite app_nil_r, fmap_app, !enumerate_paths.
Qed.

Context `{Host} (fs : FS).

Lemma glob_star_NoDup f :
  listing_wf fs → f ∈ class_folders →
  NoDup (glob_star fs (joinpath image_folder f)).
Proof.
  intros Hwf Hf. unfold glob_star.
  destruct (fs !! joinpath image_folder f) as [[names|]|] eqn:Hd;
    try constructor.
  apply (NoDup_fmap_2 _). by eapply Hwf.
Qed.

Lemma scanned_files_NoDup : listing_wf fs → NoDup (scanned_files fs).
Proof.
  intros Hwf. unfold scanned_files. apply NoDup_filter.
  rewrite visits_paths. apply NoDup_app. split_and!.
  - apply glob_star_NoDup; [done|]. unfold class_folders. set_solver.
  - unfold glob_star. intros x Hx Hy.
    destruct (fs !! joinpath image_folder "no") as [[ns|]|];
      try by apply elem_of_nil in Hx.
    destruct (fs !! joinpath image_folder "yes") as [[ms|]|];
      try by apply elem_of_nil in Hy.
    apply list_elem_of_fmap in Hx as (n1 & -> & _).
    apply list_elem_of_fmap in Hy as (n2 & Heq & _).
    by apply folder_entries_disjoint in Heq.
  - apply glob_star_NoDup; [done|]. unfold class_folders. set_solver.
Qed.

Lemma scanned_files_is_file p :
  p ∈ scanned_files fs → is_file fs p = true.
Proof. unfold scanned_files. by intros [? _]%list_elem_of_filter. Qed.

Lemma scanned_files_unlink_all ps :
  (∀ p, p ∈ ps → is_file fs p = true) →
  scanned_files (unlink_all ps fs) =
    filter (λ p, p ∉ ps) (scanned_files fs).
Proof.
  intros Hps. unfold scanned_files.
  rewrite !visits_paths, !(glob_unlink_all ps fs _ Hps), <- filter_app.
  rewrite !list_filter_filter. apply list_filter_iff.
  intros q. rewrite is_file_unlink_all. naive_solver.
Qed.

Lemma file_hash_unlink_all ps q :
  q ∉ ps → file_hash (unlink_all ps fs) q = file_hash fs q.
Proof. intros Hq. unfold file_hash. by rewrite imread_unlink_all. Qed.

(** What the deletion loop gets back from the display strings, when no
    marked path has ": " in it: the later copies, in scan order. *)
Lemma scan_list_recover l st :
  (∀ p, p ∈ later_copies (file_hash fs) (dom (hash_keys st))
              (filter (λ p, is_file fs p = true) (l.*2)) →
        PyStr.contains ": " p = false) →
  (λ d : nat * string, recover d.2) <$> dupes (foldl (scan_image fs) st l) =
  ((λ d : nat * string, recover d.2) <$> dupes st) ++
  (Some <$> later_copies (file_hash fs) (dom (hash_keys st))
              (filter (λ p, is_file fs p = true) (l.*2))).
Proof.
  revert st. induction l as [|e l IH]; intros st; simpl.
  { intros _. by rewrite app_nil_r. }
  rewrite filter_cons. unfold scan_image at 2.
  destruct (is_file fs e.2) eqn:Hf.
  - rewrite decide_True by done. simpl.
    destruct (hash_keys st !! file_hash fs e.2) as [j|] eqn:Hj.
    + rewrite decide_True by (apply elem_of_dom; eauto).
      intros Hsep. rewrite IH; simpl.
      * rewrite fmap_app, <- app_assoc. simpl.
        rewrite recover_without_sep; [done|]. apply Hsep. by left.
      * intros p Hp. apply Hsep. by right.
    + rewrite decide_False by by apply not_elem_of_dom.
      intros Hsep. rewrite IH; simpl; rewrite dom_insert_L; done.
  - rewrite decide_False by done. apply IH.
Qed.

Lemma scan_recover :
  (∀ p, p ∈ later_copies (file_hash fs) ∅ (scanned_files fs) →
        PyStr.contains ": " p = false) →
  (λ d : nat * string, recover d.2) <$> dupes (scan fs) =
  Some <$> later_copies (file_hash fs) ∅ (scanned_files fs).
Proof.
  intros Hsep. rewrite scan_unfold, scan_list_recover; simpl;
    rewrite dom_empty_L; done.
Qed.

End path_facts.

(** ** The run when every marked path comes back whole *)

(** When no later copy has ": " in its path and every later copy may be
    unlinked, the run raises nothing, unlinks exactly the later copies,
    and the scanned folders are left with the first copies, one per
    fingerprint. *)
Lemma run_keeps_first_copies `{Host} (fs : FS) :
  listing_wf fs →
  (∀ p, p ∈ later_copies (file_hash fs) ∅ (scanned_files fs) →
        PyStr.contains ": " p = false) →
  (∀ p, p ∈ later_copies (file_hash fs) ∅ (scanned_files fs) →
        ∃ c, fs !! p = Some (File c true)) →
  raised (remove_duplicate_images fs) = None ∧
  stdout (remove_duplicate_images fs) =
    [report (length (later_copies (file_hash fs) ∅ (scanned_files fs)))] ∧
  fs_after (remove_duplicate_images fs) =
    unlink_all (later_copies (file_hash fs) ∅ (scanned_files fs)) fs ∧
  scanned_files (fs_after (remove_duplicate_images fs)) =
    first_copies (file_hash fs) ∅ (scanned_files fs) ∧
  (∀ q, q ∈ scanned_files (fs_after (remove_duplicate_images fs)) →
        file_hash (fs_after (remove_duplicate_images fs)) q = file_hash fs q) ∧
  (∀ p, p ∈ scanned_files fs →
        ∃ q, q ∈ scanned_files (fs_after (remove_duplicate_images fs)) ∧
             file_hash fs q = file_hash fs p) ∧
  NoDup (file_hash (fs_after (remove_duplicate_images fs)) <$>
         scanned_files (fs_after (remove_duplicate_images fs))).
Proof.
  intros Hwf Hsep Hunl.
  set (ps := later_copies (file_hash fs) ∅ (scanned_files fs)) in *.
  pose proof (scanned_files_NoDup fs Hwf) as HndL.
  assert (NoDup ps) as Hnd
    by (eapply sublist_NoDup; [done|apply later_copies_sublist]).
  pose proof (scan_recover fs Hsep) as Hrec. fold ps in Hrec.
  pose proof (remove_dupes_ok _ _ fs Hrec Hnd Hunl) as Hrm.
  assert (length (dupes (scan fs)) = length ps) as Hlen.
  { apply (f_equal length) in Hrec. by rewrite !length_fmap in Hrec. }
  assert (∀ p, p ∈ ps → is_file fs p = true) as Hfiles.
  { intros p Hp. apply scanned_files_is_file.
    by eapply elem_of_sublist; [|apply later_copies_sublist]. }
  assert (scanned_files (unlink_all ps fs) =
          first_copies (file_hash fs) ∅ (scanned_files fs)) as Hleft.
  { rewrite scanned_files_unlink_all by done.
    by apply filter_later_copies. }
  assert (∀ q, q ∈ scanned_files (unlink_all ps fs) →
               file_hash (unlink_all ps fs) q = file_hash fs q) as Hsame.
  { intros q Hq. apply file_hash_unlink_all.
    rewrite scanned_files_unlink_all in Hq by done.
    by apply list_elem_of_filter in Hq as [? _]. }
  unfold remove_duplicate_images. rewrite Hrm, Hlen. simpl.
  split_and!; try done.
  { intros p Hp. rewrite Hleft. apply first_copies_cover; [done|set_solver]. }
  rewrite (list_fmap_ext (file_hash (unlink_all ps fs)) (file_hash fs)
             (scanned_files (unlink_all ps fs))).
  - rewrite Hleft. apply first_copies_NoDup.
  - intros i q Hq. apply Hsame. by eapply list_elem_of_lookup_2.
Qed.

(** Under the same conditions a second run finds nothing to do. *)
Lemma second_run_clean `{Host} (fs : FS) :
  listing_wf fs →
  (∀ p, p ∈ later_copies (file_hash fs) ∅ (scanned_files fs) →
        PyStr.contains ": " p = false) →
  (∀ p, p ∈ later_copies (file_hash fs) ∅ (scanned_files fs) →
        ∃ c, fs !! p = Some (File c true)) →
  stdout (remove_duplicate_images (fs_after (remove_duplicate_images fs))) =
    [report 0] ∧
  raised (remove_duplicate_images (fs_after (remove_duplicate_images fs))) =
    None ∧
  fs_after (remove_duplicate_images (fs_after (remove_duplicate_images fs))) =
    fs_after (remove_duplicate_images fs).
Proof.
  intros Hwf Hsep Hunl.
  destruct (run_keeps_first_copies fs Hwf Hsep Hunl)
    as (_ & _ & _ & _ & _ & _ & Hnd).
  apply unique_hashes_no_dupes in Hnd.
  unfold remove_duplicate_images at 1 3 5. by rewrite Hnd.
Qed.

(** ** C6: the fingerprint dictionary *)

(** C6, as stated, fails: the dictionary does not hold paths.  Two
    different fingerprints, first seen at two different paths, are both
    mapped to 0, the position of their file in its own folder. *)
Lemma index_value_is_not_the_path :
  hash_keys (scan (H:=Sample.host) Sample.distinct_tree)
    !! file_hash (H:=Sample.host) Sample.distinct_tree (Sample.no "a.png")
    = Some 0%nat ∧
  hash_keys (scan (H:=Sample.host) Sample.distinct_tree)
    !! file_hash (H:=Sample.host) Sample.distinct_tree (Sample.yes "b.png")
    = Some 0%nat ∧
  file_hash (H:=Sample.host) Sample.distinct_tree (Sample.no "a.png") ≠
  file_hash (H:=Sample.host) Sample.distinct_tree (Sample.yes "b.png") ∧
  Sample.no "a.png" ≠ Sample.yes "b.png".
Proof. split_and!; try reflexivity; vm_compute; discriminate. Qed.

(** C6, amended. The scan starts from the empty dictionary; the
    dictionary only grows, every entry keeping its value from the moment
    it is inserted; at the end a fingerprint is mapped to the enumeration
    index, within its folder, of the first scanned file that bears it
    (not to that file's path).  When no folder lists a name twice, no
    marked path has ": " in it and every marked file may be unlinked, the
    files left in the scanned folders bear pairwise different
    fingerprints. *)
Theorem index_append_only_first_seen `{Host} (fs : FS) :
  scan fs = foldl (scan_image fs) scan_init (visits fs) ∧
  hash_keys scan_init = ∅ ∧
  (∀ st e, hash_keys st ⊆ hash_keys (scan_image fs st e)) ∧
  (∀ l1 l2, visits fs = l1 ++ l2 →
     hash_keys (foldl (scan_image fs) scan_init l1) ⊆ hash_keys (scan fs)) ∧
  (∀ h, hash_keys (scan fs) !! h =
        fst <$> head (filter (hashed fs h) (visits fs))) ∧
  (listing_wf fs →
   (∀ p, p ∈ later_copies (file_hash fs) ∅ (scanned_files fs) →
         PyStr.contains ": " p = false ∧ ∃ c, fs !! p = Some (File c true)) →
   NoDup (file_hash (fs_after (remove_duplicate_images fs)) <$>
          scanned_files (fs_after (remove_duplicate_images fs)))).
Proof.
  split_and!.
  - apply scan_unfold.
  - done.
  - apply scan_image_keys.
  - intros l1 l2 Hv. rewrite scan_unfold, Hv, foldl_app. apply scan_list_keys.
  - apply scan_lookup.
  - intros Hwf Hps. apply run_keeps_first_copies; [done| |];
      intros p Hp; by destruct (Hps p Hp).
Qed.

Lemma index_append_only_first_seen_witness :
  NoDup (file_hash (H:=Sample.host)
           (fs_after (remove_duplicate_images (H:=Sample.host)
                        Sample.cross_tree)) <$>
         scanned_files (H:=Sample.host)
           (fs_after (remove_duplicate_images (H:=Sample.host)
                        Sample.cross_tree))).
Proof.
  apply (index_append_only_first_seen (H:=Sample.host) Sample.cross_tree).
  - intros f names Hf. unfold class_folders in Hf.
    apply elem_of_cons in Hf as [->|Hf];
      [|apply list_elem_of_singleton in Hf as ->];
      vm_compute; intros [= <-]; repeat constructor; set_solver.
  - assert (later_copies (file_hash (H:=Sample.host) Sample.cross_tree) ∅
              (scanned_files (H:=Sample.host) Sample.cross_tree) =
            [Sample.yes "y.png"]) as -> by reflexivity.
    intros p ->%list_elem_of_singleton. split; [reflexivity|].
    by exists Sample.Y'.
Defined.

(** ** C1, C4, C5: a path with ": " in it *)

(** C1, at the failing input: [a: 1.png] repeats the pixels of [b.png]
    and is marked, but the loop unlinks [a], the piece before ": ".  The
    run raises nothing; the only file with the pixels of [a] is gone and
    both files with the other fingerprint are still there. *)
Theorem colon_path_removes_wrong_file :
  dupes (scan (H:=Sample.host) Sample.colon_tree) =
    [(2%nat, "1: /w/data/brain_tumor_dataset/raw_images/no/a: 1.png")] ∧
  raised (remove_duplicate_images (H:=Sample.host) Sample.colon_tree) = None ∧
  fs_after (remove_duplicate_images (H:=Sample.host) Sample.colon_tree)
    !! Sample.no "a" = None ∧
  Sample.colon_tree !! Sample.no "a" = Some (File Sample.X true) ∧
  later_copies (file_hash (H:=Sample.host) Sample.colon_tree) ∅
    (scanned_files (H:=Sample.host) Sample.colon_tree) =
    [Sample.no "a: 1.png"] ∧
  scanned_files (H:=Sample.host)
    (fs_after (remove_duplicate_images (H:=Sample.host) Sample.colon_tree)) =
    [Sample.no "b.png"; Sample.no "a: 1.png"] ∧
  file_hash (H:=Sample.host)
    (fs_after (remove_duplicate_images (H:=Sample.host) Sample.colon_tree))
    (Sample.no "b.png") =
  file_hash (H:=Sample.host)
    (fs_after (remove_duplicate_images (H:=Sample.host) Sample.colon_tree))
    (Sample.no "a: 1.png").
Proof. split_and!; reflexivity. Qed.

(** C4, at the failing input: the first run on [colon_tree] ends without
    an exception, and a second run on what it leaves reports one
    duplicate again and stops on [FileNotFoundError]. *)
Theorem second_run_still_reports_duplicate :
  raised (remove_duplicate_images (H:=Sample.host) Sample.colon_tree) = None ∧
  stdout (remove_duplicate_images (H:=Sample.host)
            (fs_after (remove_duplicate_images (H:=Sample.host)
                         Sample.colon_tree))) =
    ["Total number of duplicated images: 1"] ∧
  raised (remove_duplicate_images (H:=Sample.host)
            (fs_after (remove_duplicate_images (H:=Sample.host)
                         Sample.colon_tree))) =
    Some (OSError FileNotFoundError (Sample.no "a")).
Proof. split_and!; reflexivity. Qed.

(** C5, at the failing input: one file in each folder, the same pixels in
    both, the second one named [y: 1.png].  The run reports one duplicate
    and stops on [FileNotFoundError] for the path cut at ": "; both files
    are still there. *)
Theorem cross_folder_colon_keeps_both :
  imread (H:=Sample.host) Sample.cross_colon_tree (Sample.no "x.png") =
  imread (H:=Sample.host) Sample.cross_colon_tree (Sample.yes "y: 1.png") ∧
  stdout (remove_duplicate_images (H:=Sample.host) Sample.cross_colon_tree) =
    ["Total number of duplicated images: 1"] ∧
  raised (remove_duplicate_images (H:=Sample.host) Sample.cross_colon_tree) =
    Some (OSError FileNotFoundError (Sample.yes "y")) ∧
  scanned_files (H:=Sample.host)
    (fs_after (remove_duplicate_images (H:=Sample.host)
                 Sample.cross_colon_tree)) =
    [Sample.no "x.png"; Sample.yes "y: 1.png"].
Proof. split_and!; reflexivity. Qed.

(** The same two images under names without ": ": the copy in [yes] is
    unlinked and one duplicate is reported. *)
Example cross_folder_collapse :
  stdout (remove_duplicate_images (H:=Sample.host) Sample.cross_tree) =
    ["Total number of duplicated images: 1"] ∧
  raised (remove_duplicate_images (H:=Sample.host) Sample.cross_tree) = None ∧
  scanned_files (H:=Sample.host)
    (fs_after (remove_duplicate_images (H:=Sample.host) Sample.cross_tree)) =
    [Sample.no "x.png"].
Proof. split_and!; reflexivity. Qed.

(** * Further properties of [remove_duplicate_images] *)

Section marking.
Context `{Host} (fs : FS).

Lemma scan_list_later_copies l st :
  ∃ new,
    dupes (foldl (scan_image fs) st l) = dupes st ++ new ∧
    Forall2 (λ (d : nat * string) p, ∃ j, d.2 = display j p) new
      (later_copies (file_hash fs) (dom (hash_keys st))
         (filter (λ p, is_file fs p = true) (l.*2))).
Proof.
  revert st. induction l as [|e l IH]; intros st; simpl.
  { exists []. by rewrite app_nil_r. }
  rewrite filter_cons. unfold scan_image at 2.
  destruct (is_file fs e.2) eqn:Hf.
  - rewrite decide_True by done. simpl.
    destruct (hash_keys st !! file_hash fs e.2) as [j|] eqn:Hj.
    + rewrite decide_True by (apply elem_of_dom; eauto).
      destruct (IH {| hash_keys := hash_keys st;
                      dupes := dupes st ++ [(e.1, display j e.2)] |})
        as (new & -> & Hnew).
      exists ((e.1, display j e.2) :: new). simpl.
      rewrite <- app_assoc. split; [done|]. constructor; [by exists j|done].
    + rewrite decide_False by by apply not_elem_of_dom.
      destruct (IH {| hash_keys := <[file_hash fs e.2:=e.1]> (hash_keys st);
                      dupes := dupes st |}) as (new & -> & Hnew).
      exists new. simpl in *. by rewrite dom_insert_L in Hnew.
  - rewrite decide_False by done. apply IH.
Qed.

End marking.

Section counting.
Context (h : string → string).

Lemma copies_length seen l :
  length (first_copies h seen l) + length (later_copies h seen l) = length l.
Proof.
  revert seen. induction l as [|p l IH]; intros seen; simpl; [done|].
  case_decide; simpl;
    [specialize (IH seen)|specialize (IH ({[h p]} ∪ seen))]; lia.
Qed.

Lemma first_copies_length seen l :
  length (first_copies h seen l) =
  size ((list_to_set (h <$> l) : gset string) ∖ seen).
Proof.
  revert seen. induction l as [|p l IH]; intros seen.
  { simpl. by rewrite difference_disjoint_L, size_empty by set_solver. }
  cbn [first_copies]. rewrite fmap_cons, list_to_set_cons.
  set (hs := list_to_set (h <$> l) : gset string) in *.
  case_decide as Hp.
  - rewrite IH. f_equal. set_solver.
  - cbn [length]. rewrite IH.
    assert (({[h p]} ∪ hs) ∖ seen = {[h p]} ∪ hs ∖ ({[h p]} ∪ seen)) as ->.
    { apply set_eq. intros x. destruct (decide (x = h p)); set_solver. }
    rewrite (size_union (C:=gset string) {[h p]} (hs ∖ ({[h p]} ∪ seen)))
      by set_solver.
    by rewrite (size_singleton (C:=gset string)).
Qed.

End counting.

Lemma dupes_later_copies `{Host} (fs : FS) :
  Forall2 (λ (d : nat * string) p, ∃ j, d.2 = display j p)
    (dupes (scan fs))
    (later_copies (file_hash fs) ∅ (scanned_files fs)).
Proof.
  rewrite scan_unfold.
  destruct (scan_list_later_copies fs (visits fs) scan_init)
    as (new & -> & Hnew).
  simpl in *. by rewrite dom_empty_L in Hnew.
Qed.

(** X1. The scan marks, in scan order, exactly the files whose
    fingerprint is borne by a file scanned before them, whatever their
    names: entry by entry, [dupes] holds the display strings of the later
    copies, and the files left unmarked bear pairwise different
    fingerprints. *)
Theorem marks_are_later_copies `{Host} (fs : FS) :
  Forall2 (λ (d : nat * string) p, ∃ j, d.2 = display j p)
    (dupes (scan fs))
    (later_copies (file_hash fs) ∅ (scanned_files fs)) ∧
  length (first_copies (file_hash fs) ∅ (scanned_files fs)) +
    length (dupes (scan fs)) = length (scanned_files fs) ∧
  NoDup (file_hash fs <$> first_copies (file_hash fs) ∅ (scanned_files fs)).
Proof.
  split_and!.
  - apply dupes_later_copies.
  - rewrite (Forall2_length _ _ _ (dupes_later_copies fs)).
    apply copies_length.
  - apply first_copies_NoDup.
Qed.

(** X2. The number the run prints is the number of scanned regular files
    less the number of different fingerprints among them. *)
Theorem reported_count `{Host} (fs : FS) :
  stdout (remove_duplicate_images fs) =
    [report (length (scanned_files fs) -
             size (list_to_set (file_hash fs <$> scanned_files fs)
                   : gset string))] ∧
  length (dupes (scan fs)) +
    size (list_to_set (file_hash fs <$> scanned_files fs) : gset string) =
  length (scanned_files fs).
Proof.
  assert (length (dupes (scan fs)) +
    size (list_to_set (file_hash fs <$> scanned_files fs) : gset string) =
    length (scanned_files fs)) as Hcount.
  { rewrite (Forall2_length _ _ _ (dupes_later_copies fs)).
    rewrite <- (copies_length (file_hash fs) ∅ (scanned_files fs)).
    rewrite first_copies_length, difference_empty_L. lia. }
  split; [|done]. unfold remove_duplicate_images. simpl.
  do 2 f_equal. lia.
Qed.

Section only_unlinks.

Lemma os_remove_inr (fs fs' : FS) q :
  os_remove fs q = inr fs' →
  fs' = unlink q fs ∧ ∃ c, fs !! q = Some (File c true).
Proof.
  unfold os_remove. destruct (fs !! q) as [[ns|c []]|]; try done.
  intros [= <-]. eauto.
Qed.

(** One successful [os.remove] leaves every other file as it is, keeps
    every directory, with a listing that can only lose names, and
    creates nothing. *)
Lemma os_remove_keeps (fs fs' : FS) q p :
  os_remove fs q = inr fs' →
  (∀ c u, fs' !! p = Some (File c u) → fs !! p = Some (File c u)) ∧
  (∀ ns, fs !! p = Some (Dir ns) →
     ∃ ns', fs' !! p = Some (Dir ns') ∧ ns' `sublist_of` ns) ∧
  (fs !! p = None → fs' !! p = None).
Proof.
  intros (-> & c0 & Hq)%os_remove_inr. rewrite lookup_unlink.
  split_and!.
  - intros c u. case_decide; [done|].
    destruct (fs !! p) as [[ns|c' u']|]; simpl; congruence.
  - intros ns Hp. rewrite decide_False by congruence.
    rewrite Hp. simpl. eexists. split; [done|]. apply sublist_filter.
  - intros ->. by case_decide.
Qed.

Lemma remove_dupes_keeps ds (fs : FS) p :
  (∀ c u, (remove_dupes fs ds).1 !! p = Some (File c u) →
          fs !! p = Some (File c u)) ∧
  (∀ ns, fs !! p = Some (Dir ns) →
     ∃ ns', (remove_dupes fs ds).1 !! p = Some (Dir ns') ∧
            ns' `sublist_of` ns) ∧
  (fs !! p = None → (remove_dupes fs ds).1 !! p = None).
Proof.
  revert fs. induction ds as [|d ds IH]; intros fs; simpl.
  { split_and!; eauto. }
  destruct (recover d.2) as [path|]; simpl; [|split_and!; eauto].
  destruct (os_remove fs path) as [e|fs'] eqn:Hrm; simpl;
    [split_and!; eauto|].
  destruct (os_remove_keeps fs fs' path p Hrm) as (Hf & Hd & Hn).
  destruct (IH fs') as (Hf' & Hd' & Hn'). split_and!.
  - intros c u Hp. by apply Hf, Hf'.
  - intros ns Hp. destruct (Hd ns Hp) as (ns1 & Hp1 & Hs1).
    destruct (Hd' ns1 Hp1) as (ns2 & Hp2 & Hs2).
    exists ns2. split; [done|]. by etrans.
  - intros Hp. by apply Hn', Hn.
Qed.

End only_unlinks.

(** X3. Whatever the names and whether or not the run raises, it only
    unlinks regular files: a regular file found after the run was there
    before with the same content, a directory is never removed and its
    listing can only lose names, and no path is created. *)
Theorem run_only_unlinks_files `{Host} (fs : FS) (p : string) :
  (∀ c u, fs_after (remove_duplicate_images fs) !! p = Some (File c u) →
          fs !! p = Some (File c u)) ∧
  (∀ ns, fs !! p = Some (Dir ns) →
     ∃ ns', fs_after (remove_duplicate_images fs) !! p = Some (Dir ns') ∧
            ns' `sublist_of` ns) ∧
  (fs !! p = None → fs_after (remove_duplicate_images fs) !! p = None).
Proof. apply remove_dupes_keeps. Qed.

(** * [tidy_filenames_folders] *)

Section slash_facts.

Lemma split_slash_cons c r :
  PyStr.split "/" (String c r) =
  if Ascii.eqb c "/" then "" :: PyStr.split "/" r
  else PyStr.push c (PyStr.split "/" r).
Proof.
  unfold PyStr.split. cbn [PyStr.split_go PyStr.startswith].
  by destruct (Ascii.eqb c "/").
Qed.

Lemma split_slash_nonempty s : PyStr.split "/" s ≠ [].
Proof. apply split_go_nonempty. Qed.

Lemma join_cons_nonempty sep x l :
  l ≠ [] → PyText.join sep (x :: l) = x +:+ sep +:+ PyText.join sep l.
Proof. by destruct l. Qed.

Lemma join_push c l :
  l ≠ [] → PyText.join "/" (PyStr.push c l) = String c (PyText.join "/" l).
Proof. intros Hl. destruct l as [|x [|y l]]; done. Qed.

Lemma join_split_slash s : PyText.join "/" (PyStr.split "/" s) = s.
Proof.
  induction s as [|c r IH]; [done|]. rewrite split_slash_cons.
  pose proof (split_slash_nonempty r) as Hne.
  destruct (Ascii.eqb c "/") eqn:Hc.
  - apply Ascii.eqb_eq in Hc as ->.
    rewrite join_cons_nonempty by done. by rewrite IH.
  - rewrite join_push by done. by rewrite IH.
Qed.

Lemma split_slash_none n :
  PyStr.has_char "/" n = false → PyStr.split "/" n = [n].
Proof.
  induction n as [|c r IH]; [done|]. simpl. rewrite split_slash_cons.
  destruct (Ascii.eqb c "/"); [done|]. intros Hr. by rewrite (IH Hr).
Qed.

Lemma push_app c l k : l ≠ [] → PyStr.push c (l ++ k) = PyStr.push c l ++ k.
Proof. by destruct l. Qed.

(** The last piece of a path is what follows its last "/". *)
Lemma split_slash_snoc d n :
  PyStr.has_char "/" n = false →
  PyStr.split "/" (d +:+ "/" +:+ n) = PyStr.split "/" d ++ [n].
Proof.
  intros Hn. induction d as [|c d IH].
  - change ("" +:+ "/" +:+ n) with (String "/" n).
    rewrite split_slash_cons. simpl. by rewrite split_slash_none.
  - change (String c d +:+ "/" +:+ n) with (String c (d +:+ "/" +:+ n)).
    rewrite !split_slash_cons, IH. destruct (Ascii.eqb c "/"); [done|].
    apply push_app, split_slash_nonempty.
Qed.

Lemma final_filename_snoc d n :
  PyStr.has_char "/" n = false →
  final_filename (d +:+ "/" +:+ n) = d +:+ "/" +:+ altered_filename n.
Proof.
  intros Hn. unfold final_filename.
  rewrite split_slash_snoc by done.
  by rewrite removelast_last, last_snoc, join_split_slash.
Qed.

End slash_facts.

Section altered_facts.

Lemma altered_filename_cons c r :
  altered_filename (String c r) = String (altered_char c) (altered_filename r).
Proof. done. Qed.

Lemma altered_char_facts c :
  altered_char (altered_char c) = altered_char c ∧
  Ascii.eqb (altered_char c) " " = false ∧
  PyText.is_lower (altered_char c) = false ∧
  (Ascii.eqb c "/" = false → Ascii.eqb (altered_char c) "/" = false) ∧
  ((N_of_ascii c <? 128)%N = true →
   (N_of_ascii (altered_char c) <? 128)%N = true).
Proof. destruct c as [[] [] [] [] [] [] [] []]; vm_compute; done. Qed.

Lemma altered_filename_no_slash n :
  PyStr.has_char "/" n = false →
  PyStr.has_char "/" (altered_filename n) = false.
Proof.
  induction n as [|c r IH]; [done|]. rewrite altered_filename_cons. simpl.
  destruct (Ascii.eqb c "/") eqn:Hc; [done|]. intros Hr.
  destruct (altered_char_facts c) as (_ & _ & _ & Hs & _).
  by rewrite (Hs Hc), (IH Hr).
Qed.

Lemma altered_filename_idem n :
  altered_filename (altered_filename n) = altered_filename n.
Proof.
  induction n as [|c r IH]; [done|]. rewrite !altered_filename_cons, IH.
  by destruct (altered_char_facts c) as (-> & _).
Qed.

End altered_facts.

Section tidy_facts.

Lemma has_char_altered c n :
  PyStr.has_char c (altered_filename n) = true →
  Ascii.eqb c " " = false ∧ PyText.is_lower c = false.
Proof.
  induction n as [|a r IH]; [done|]. rewrite altered_filename_cons. simpl.
  destruct (Ascii.eqb (altered_char a) c) eqn:Ha; [|done].
  intros _. apply Ascii.eqb_eq in Ha as <-.
  by destruct (altered_char_facts a) as (_ & ? & ? & _).
Qed.

Lemma altered_filename_length n :
  String.length (altered_filename n) = String.length n.
Proof.
  induction n as [|a r IH]; [done|]. rewrite altered_filename_cons. simpl.
  by rewrite IH.
Qed.

Lemma altered_filename_ascii n :
  PyText.is_ascii n = true → PyText.is_ascii (altered_filename n) = true.
Proof.
  induction n as [|a r IH]; [done|]. rewrite altered_filename_cons. simpl.
  intros [Ha Hr]%andb_prop.
  destruct (altered_char_facts a) as (_ & _ & _ & _ & Hasc).
  by rewrite (Hasc Ha), (IH Hr).
Qed.

Lemma split_slash_some s :
  PyStr.has_char "/" s = true →
  ∃ l x, l ≠ [] ∧ PyStr.split "/" s = l ++ [x].
Proof.
  induction s as [|c r IH]; [done|]. simpl. rewrite split_slash_cons.
  destruct (Ascii.eqb c "/") eqn:Hc.
  - intros _. pose proof (split_slash_nonempty r) as Hne.
    destruct (PyStr.split "/" r) as [|y k _] using rev_ind; [done|].
    exists ("" :: k), y. done.
  - intros (l & x & Hl & ->)%IH. exists (PyStr.push c l), x.
    split; [by destruct l|]. by apply push_app.
Qed.

Lemma join_snoc l x :
  l ≠ [] → PyText.join "/" (l ++ [x]) = PyText.join "/" l +:+ "/" +:+ x.
Proof.
  induction l as [|y l IH]; [done|]. intros _.
  destruct l as [|z l]; [done|].
  change ((y :: z :: l) ++ [x]) with (y :: ((z :: l) ++ [x])).
  rewrite !join_cons_nonempty by done.
  rewrite IH by done. by rewrite !app_string_assoc.
Qed.

End tidy_facts.

(** X4. Splitting a path at "/" and putting the pieces back, as
    [tidy_filenames_folders] does around the last piece, is lossless
    for a path with a "/" in it: all pieces but the last joined by "/",
    then "/" and the last piece, give the path back.  A path without "/"
    comes back with a "/" in front. *)
Theorem split_join_round_trip (img : string) :
  PyText.join "/" (PyStr.split "/" img) = img ∧
  (PyStr.has_char "/" img = true →
   PyText.join "/" (removelast (PyStr.split "/" img)) +:+ "/" +:+
     default "" (last (PyStr.split "/" img)) = img) ∧
  (PyStr.has_char "/" img = false →
   PyText.join "/" (removelast (PyStr.split "/" img)) +:+ "/" +:+
     default "" (last (PyStr.split "/" img)) = "/" +:+ img).
Proof.
  split_and!.
  - apply join_split_slash.
  - intros (l & x & Hl & Hs)%split_slash_some.
    rewrite <- (join_split_slash img) at 3. rewrite Hs.
    by rewrite removelast_last, last_snoc, join_snoc.
  - intros Hn. by rewrite split_slash_none.
Qed.

Lemma split_join_round_trip_witness :
  PyText.join "/" (removelast (PyStr.split "/" "/w/TRAIN_IMGS/YES/y 1.jpg"))
    +:+ "/" +:+
    default "" (last (PyStr.split "/" "/w/TRAIN_IMGS/YES/y 1.jpg"))
  = "/w/TRAIN_IMGS/YES/y 1.jpg".
Proof.
  apply (split_join_round_trip "/w/TRAIN_IMGS/YES/y 1.jpg"). reflexivity.
Defined.

(** X5. For an ASCII name, [name.replace(" ", "_").upper()] has the
    length of the name, no space and no letter from [a] to [z] in it,
    and is left unchanged when the same is done to it again. *)
Theorem altered_filename_is_tidy (name : string) :
  PyText.is_ascii name = true →
  String.length (altered_filename name) = String.length name ∧
  PyStr.has_char " " (altered_filename name) = false ∧
  (∀ c, PyStr.has_char c (altered_filename name) = true →
        PyText.is_lower c = false) ∧
  PyText.is_ascii (altered_filename name) = true ∧
  altered_filename (altered_filename name) = altered_filename name.
Proof.
  intros Hasc. split_and!.
  - apply altered_filename_length.
  - destruct (PyStr.has_char " " (altered_filename name)) eqn:Hsp; [|done].
    apply has_char_altered in Hsp as [Hsp _]. done.
  - intros c Hc. by apply has_char_altered in Hc as [_ ?].
  - by apply altered_filename_ascii.
  - apply altered_filename_idem.
Qed.

Lemma altered_filename_is_tidy_witness :
  String.length (altered_filename "y 12 b.jpg") = String.length "y 12 b.jpg" ∧
  PyStr.has_char " " (altered_filename "y 12 b.jpg") = false ∧
  (∀ c, PyStr.has_char c (altered_filename "y 12 b.jpg") = true →
        PyText.is_lower c = false) ∧
  PyText.is_ascii (altered_filename "y 12 b.jpg") = true ∧
  altered_filename (altered_filename "y 12 b.jpg") =
    altered_filename "y 12 b.jpg".
Proof. apply (altered_filename_is_tidy "y 12 b.jpg"). reflexivity. Defined.

(** X6. For a file [name] (ASCII, without "/") in a directory [d], the
    rename target is in the same directory: [d], "/" and the altered
    name; and the target computed from that target is the target itself,
    so a second pass renames the file onto itself. *)
Theorem final_filename_same_folder (d name : string) :
  PyStr.has_char "/" name = false →
  PyText.is_ascii name = true →
  final_filename (d +:+ "/" +:+ name) = d +:+ "/" +:+ altered_filename name ∧
  final_filename (final_filename (d +:+ "/" +:+ name)) =
    final_filename (d +:+ "/" +:+ name).
Proof.
  intros Hn _. rewrite !final_filename_snoc by done.
  split; [done|].
  rewrite final_filename_snoc by by apply altered_filename_no_slash.
  by rewrite altered_filename_idem.
Qed.

Lemma final_filename_same_folder_witness :
  final_filename ("/w/TRAIN_IMGS/YES" +:+ "/" +:+ "y 12 b.jpg") =
    "/w/TRAIN_IMGS/YES" +:+ "/" +:+ altered_filename "y 12 b.jpg" ∧
  final_filename (final_filename ("/w/TRAIN_IMGS/YES" +:+ "/" +:+ "y 12 b.jpg"))
    = final_filename ("/w/TRAIN_IMGS/YES" +:+ "/" +:+ "y 12 b.jpg").
Proof.
  apply (final_filename_same_folder "/w/TRAIN_IMGS/YES" "y 12 b.jpg");
    reflexivity.
Defined.

(** X7. The rename calls of [tidy_filenames_folders] take the entries of
    the six folders in listing order, and each call keeps its file in
    its folder: for an entry [name] (ASCII, without "/") of a folder the
    target is that folder joined with the altered name. *)
Theorem tidy_calls_stay_in_folder `{Host} (fs : FS) :
  (tidy_filenames_folders fs).*1 =
    (pf ← parent_folders; cf ← child_folders;
     glob_star fs (joinpath (joinpath formatted_folder pf) cf)) ∧
  ∀ src dst, (src, dst) ∈ tidy_filenames_folders fs →
    ∃ pf cf names name,
      pf ∈ parent_folders ∧ cf ∈ child_folders ∧
      fs !! joinpath (joinpath formatted_folder pf) cf = Some (Dir names) ∧
      name ∈ names ∧
      src = joinpath (joinpath (joinpath formatted_folder pf) cf) name ∧
      dst = final_filename src ∧
      (PyStr.has_char "/" name = false → PyText.is_ascii name = true →
       dst = joinpath (joinpath (joinpath formatted_folder pf) cf)
               (altered_filename name)).
Proof.
  split.
  - unfold tidy_filenames_folders, parent_folders, child_folders. simpl.
    rewrite !app_nil_r, !fmap_app.
    assert (∀ l : list string,
              (l ≫= (λ img, [(img, final_filename img)])).*1 = l) as Hl.
    { induction l as [|x l IH]; [done|]. csimpl. by rewrite IH. }
    by rewrite !Hl.
  - intros src dst Hin. unfold tidy_filenames_folders in Hin.
    apply list_elem_of_bind in Hin as (pf & Hin & Hpf).
    apply list_elem_of_bind in Hin as (cf & Hin & Hcf).
    apply list_elem_of_bind in Hin as (img & Hin & Himg).
    apply list_elem_of_singleton in Hin. injection Hin as -> ->.
    unfold glob_star in Himg.
    destruct (fs !! joinpath (joinpath formatted_folder pf) cf)
      as [[names|]|] eqn:Hd; try by apply elem_of_nil in Himg.
    apply list_elem_of_fmap in Himg as (name & -> & Hname).
    exists pf, cf, names, name. split_and!; try done.
    intros Hslash _.
    assert (cf ≠ "") as Hne.
    { unfold child_folders in Hcf. intros ->. set_solver. }
    rewrite !(joinpath_nested _ cf) by done.
    by apply final_filename_snoc.
Qed.

Lemma tidy_calls_stay_in_folder_witness :
  ∃ pf cf names name,
    pf ∈ parent_folders ∧ cf ∈ child_folders ∧
    Demo.train_yes_tree
      !! joinpath (joinpath (formatted_folder (H:=Sample.host)) pf) cf
      = Some (Dir names) ∧
    name ∈ names ∧
    "/w/data/brain_tumor_dataset/formatted_images/TRAIN_IMGS/YES/y 12 b.jpg" =
      joinpath (joinpath (joinpath (formatted_folder (H:=Sample.host)) pf) cf)
        name ∧
    "/w/data/brain_tumor_dataset/formatted_images/TRAIN_IMGS/YES/Y_12_B.JPG" =
      final_filename
        "/w/data/brain_tumor_dataset/formatted_images/TRAIN_IMGS/YES/y 12 b.jpg" ∧
    (PyStr.has_char "/" name = false → PyText.is_ascii name = true →
     "/w/data/brain_tumor_dataset/formatted_images/TRAIN_IMGS/YES/Y_12_B.JPG" =
       joinpath (joinpath (joinpath (formatted_folder (H:=Sample.host)) pf) cf)
         (altered_filename name)).
Proof.
  apply (tidy_calls_stay_in_folder (H:=Sample.host) Demo.train_yes_tree).
  vm_compute. constructor.
Defined.

(** * [populate_image_folders] *)

Section split_facts_float.

Ltac div_lia := zify; Z.to_euclidean_division_equations; lia.

Lemma splits_check_sound fuel z k :
  splits_check fuel z = true →
  (z ≤ k < z + Z.of_nat fuel)%Z → splits_ok k = true.
Proof.
  revert z. induction fuel as [|fuel IH]; intros z; simpl; [lia|].
  intros [Hz Hrest]%andb_prop Hk.
  destruct (decide (k = z)) as [->|Hne]; [done|].
  apply (IH (z + 1)%Z); [done|lia].
Qed.

Lemma splits_checked : splits_check 20000 0 = true.
Proof. vm_compute. reflexivity. Qed.

Lemma splits_checked_range : Z.of_nat 20000 = 20000%Z.
Proof. vm_compute. reflexivity. Qed.

Lemma splits_closed (count : nat) :
  (Z.of_nat count < 20000)%Z →
  PyNum.test_split (Z.of_nat count) = Z.of_nat (test_count count) ∧
  PyNum.val_split (Z.of_nat count) (PyNum.test_split (Z.of_nat count)) =
    Z.of_nat (val_count count).
Proof.
  intros Hc.
  pose proof (splits_check_sound 20000 0 (Z.of_nat count) splits_checked)
    as Hok.
  rewrite splits_checked_range in Hok.
  unfold splits_ok in Hok. apply bool_decide_eq_true in Hok as [Ht Hv]; [|lia].
  rewrite Hv, Ht. unfold val_count, test_count.
  split; [div_lia|]. repeat case_decide; div_lia.
Qed.

Lemma split_folder_closed (count n : nat) :
  (Z.of_nat count < 20000)%Z →
  split_folder count n =
    if decide (n ≤ test_count count) then "TEST_IMGS"
    else if decide (n + val_count count ≤ count) then "TRAIN_IMGS"
         else "VALIDATION_IMGS".
Proof.
  intros Hc. unfold split_folder.
  destruct (splits_closed count Hc) as [-> ->].
  repeat case_decide;
    repeat match goal with
           | |- context [(?a <=? ?b)%Z] =>
               destruct (Z.leb_spec a b)
           end; try done; lia.
Qed.

Lemma splits_bounds (count : nat) :
  1 ≤ count →
  test_count count + 1 ≤ count ∧
  test_count count + val_count count ≤ count.
Proof. unfold val_count, test_count. intros. case_decide; div_lia. Qed.

Lemma fmap_seq_const {A} (g : nat → A) (x : A) s len :
  (∀ n, s ≤ n < s + len → g n = x) → g <$> seq s len = replicate len x.
Proof.
  revert s. induction len as [|len IH]; intros s Hg; [done|].
  simpl. rewrite Hg by lia. f_equal. apply IH. intros n Hn. apply Hg. lia.
Qed.

(** The branches taken along a folder of [count] entries: a block for
    [TEST_IMGS], a block for [TRAIN_IMGS], a block for
    [VALIDATION_IMGS]. *)
Lemma split_folder_blocks (count : nat) :
  1 ≤ count → (Z.of_nat count < 20000)%Z →
  split_folder count <$> seq 0 count =
    replicate (test_count count + 1) "TEST_IMGS" ++
    replicate (count - (test_count count + 1) - pred (val_count count))
      "TRAIN_IMGS" ++
    replicate (pred (val_count count)) "VALIDATION_IMGS".
Proof.
  intros H1 Hc. destruct (splits_bounds count H1) as [Ha Hb].
  set (t := test_count count) in *. set (w := val_count count) in *.
  set (a := t + 1). set (v := pred w). set (b := count - a - v).
  assert (count = a + (b + v)) as Hsum by (unfold a, b, v; lia).
  rewrite Hsum at 2. rewrite !seq_app, !fmap_app.
  f_equal; [|f_equal]; apply fmap_seq_const; intros n Hn;
    rewrite split_folder_closed by done; fold t w;
    unfold a, b, v in *; repeat case_decide; try done; lia.
Qed.

End split_facts_float.

(** X8. For a folder of fewer than 20000 entries the two float
    computations are integer computations: [test_split] is the count
    plus 2, divided by 5 and rounded down (a fifth of the count, rounded
    to the nearest integer), and [val_split] is a tenth of the rest
    rounded to the nearest integer, a tie going to the even one. *)
Theorem splits_are_integer_roundings (count : nat) :
  (Z.of_nat count < 20000)%Z →
  PyNum.test_split (Z.of_nat count) = Z.of_nat ((count + 2) / 5) ∧
  PyNum.val_split (Z.of_nat count) (PyNum.test_split (Z.of_nat count)) =
    Z.of_nat
      (if decide ((count - (count + 2) / 5) mod 20 = 5)
       then (count - (count + 2) / 5) / 10
       else (count - (count + 2) / 5 + 5) / 10).
Proof. apply splits_closed. Qed.

Lemma splits_are_integer_roundings_witness :
  PyNum.test_split (Z.of_nat 253) = Z.of_nat ((253 + 2) / 5) ∧
  PyNum.val_split (Z.of_nat 253) (PyNum.test_split (Z.of_nat 253)) =
    Z.of_nat
      (if decide ((253 - (253 + 2) / 5) mod 20 = 5)
       then (253 - (253 + 2) / 5) / 10
       else (253 - (253 + 2) / 5 + 5) / 10).
Proof. apply (splits_are_integer_roundings 253). lia. Defined.

(** X9. For a class folder listing [count] entries, with
    [1 <= count < 20000], the copy calls take the entries in listing
    order, each once, regular file or not; the first [test_split + 1]
    go to [TEST_IMGS], the last [val_split - 1] (none when [val_split] is
    0) go to [VALIDATION_IMGS] and the entries between go to
    [TRAIN_IMGS]. *)
Theorem populate_class_blocks `{Host} (fs : FS) (c : string) :
  1 ≤ length (glob_star fs (joinpath image_folder c)) →
  (Z.of_nat (length (glob_star fs (joinpath image_folder c))) < 20000)%Z →
  (populate_class fs c).*1 = glob_star fs (joinpath image_folder c) ∧
  (populate_class fs c).*2 =
    (λ split, copy_target split c) <$>
      (replicate
         (test_count (length (glob_star fs (joinpath image_folder c))) + 1)
         "TEST_IMGS" ++
       replicate
         (length (glob_star fs (joinpath image_folder c)) -
          (test_count (length (glob_star fs (joinpath image_folder c))) + 1) -
          pred (val_count (length (glob_star fs (joinpath image_folder c)))))
         "TRAIN_IMGS" ++
       replicate
         (pred (val_count (length (glob_star fs (joinpath image_folder c)))))
         "VALIDATION_IMGS").
Proof.
  intros H1 Hc. unfold populate_class.
  set (l := glob_star fs (joinpath image_folder c)) in *.
  rewrite !fmap_imap. split.
  - rewrite (imap_ext _ (const id)) by done.
    by rewrite imap_const, list_fmap_id.
  - rewrite <- (split_folder_blocks (length l) H1 Hc), <- list_fmap_compose.
    apply (imap_seq_0 l (λ n, copy_target (split_folder (length l) n) c)).
Qed.

Lemma populate_class_blocks_witness :
  (populate_class (H:=Sample.host) Demo.seven_tree "yes").*2 =
    (λ split, copy_target (H:=Sample.host) split "yes") <$>
      ["TEST_IMGS"; "TEST_IMGS"; "TRAIN_IMGS"; "TRAIN_IMGS"; "TRAIN_IMGS";
       "TRAIN_IMGS"; "TRAIN_IMGS"].
Proof.
  apply (populate_class_blocks (H:=Sample.host) Demo.seven_tree "yes");
    vm_compute; [lia|done].
Defined.

(** X10. A class folder of fewer than 19 entries sends nothing to
    [VALIDATION_IMGS], and the first entry of a folder always goes to
    [TEST_IMGS], so a folder with one entry sends nothing to
    [TRAIN_IMGS]. *)
Theorem small_folder_has_no_validation (count n : nat) :
  n < count → count < 19 →
  split_folder count n ≠ "VALIDATION_IMGS" ∧
  split_folder count 0 = "TEST_IMGS".
Proof.
  intros Hn Hc. rewrite !split_folder_closed by lia.
  unfold val_count, test_count.
  repeat case_decide; try done;
    (zify; Z.to_euclidean_division_equations; lia).
Qed.

Lemma small_folder_has_no_validation_witness :
  split_folder 18 17 ≠ "VALIDATION_IMGS" ∧ split_folder 18 0 = "TEST_IMGS".
Proof. apply (small_folder_has_no_validation 18 17); lia. Defined.
